(** * FalkorDBGraph: schema discovery, schema rendering and shutdown

    A shallow embedding of the [FalkorDBGraph] class of
    [src/graphs/falkordb.ts] and the properties of its schema cache
    ([refreshSchema], [formatSchema], [getSchema]) and of [close].

    The class talks to three things it does not own: the FalkorDB driver,
    the graph handle the driver hands out, and the console.  Every call
    that crosses that border is recorded as an [Event] in a trace, and the
    answers of the driver and of the graph are functions of the trace so
    far, so that a backend whose contents change between two calls is a
    value of the model. *)

From Stdlib Require Import List String Ascii Bool ZArith NArith Permutation.
From Stdlib Require Import DecimalString.
Import ListNotations.

Local Open Scope string_scope.
Local Open Scope list_scope.

(** ** JavaScript values used by the class *)

Module JS.

(** A thrown value: an [Error] object with its [message], or any other
    value, kept as what [String(value)] gives. *)
Inductive Thrown : Type :=
| ErrorObject (message : string)
| OtherValue (rendering : string).

(** [error instanceof Error ? error.message : String(error)] *)
Definition errorMessage (e : Thrown) : string :=
  match e with
  | ErrorObject m => m
  | OtherValue s => s
  end.

(** The line feed, written [\n] in the source. *)
Definition newline : string := String (ascii_of_nat 10) EmptyString.

(** The double quote, for the template literals that contain one. *)
Definition dquote : string := String (ascii_of_nat 34) EmptyString.

(** [x ?? d] *)
Definition nullish {A : Type} (x : option A) (d : A) : A :=
  match x with Some a => a | None => d end.

(** The value of an optional string when it is truthy, that is, present
    and not empty. *)
Definition truthy (x : option string) : option string :=
  match x with
  | Some EmptyString => None
  | other => other
  end.

(** [xs || []] for [xs] an array or undefined; an array, empty or not,
    is truthy. *)
Definition or_empty {A : Type} (xs : option (list A)) : list A :=
  match xs with Some l => l | None => [] end.

(** What the class reads of a parsed [URL]. *)
Record URL : Type := mkURL { hostname : string; port : string }.

(** [Array.prototype.join] on an array of strings. *)
Fixpoint join (sep : string) (xs : list string) : string :=
  match xs with
  | [] => ""
  | [x] => x
  | x :: rest => x ++ sep ++ join sep rest
  end.

(** [`${n}`] for an integral number below 10^21, where the template literal
    prints plain decimal digits. *)
Definition number_to_string (n : Z) : string :=
  NilZero.string_of_int (Z.to_int n).

(** *** Ordinary objects used as string-keyed maps

    An object is the list of its own properties in creation order, each
    key once.  [Object.entries] does not follow creation order alone:
    keys that are array indices ("0", "7", "42", up to 2^32-2, written
    canonically) come first, in ascending numeric order, and the other
    keys follow in creation order. *)

Definition Object (V : Type) : Type := list (string * V).

Definition empty {V : Type} : Object V := [].

(** [obj[k] = v]: an existing key keeps its place and takes the new value,
    a new key goes last. *)
Fixpoint set {V : Type} (k : string) (v : V) (o : Object V) : Object V :=
  match o with
  | [] => [(k, v)]
  | (k', v') :: o' =>
      if String.eqb k k' then (k, v) :: o' else (k', v') :: set k v o'
  end.

Definition fromEntries {V : Type} (es : list (string * V)) : Object V :=
  fold_left (fun o e => set (fst e) (snd e) o) es empty.

Definition is_digit (c : ascii) : bool :=
  (48 <=? N_of_ascii c)%N && (N_of_ascii c <=? 57)%N.

Fixpoint digits_value (s : string) (acc : N) : option N :=
  match s with
  | EmptyString => Some acc
  | String c s' =>
      if is_digit c
      then digits_value s' (10 * acc + (N_of_ascii c - 48))%N
      else None
  end.

(** The array index a key denotes, if it is the canonical decimal form
    of an integer in 0 .. 2^32-2. *)
Definition array_index (k : string) : option N :=
  match k with
  | EmptyString => None
  | String c rest =>
      if Ascii.eqb c "0"%char
      then match rest with EmptyString => Some 0%N | _ => None end
      else match digits_value k 0 with
           | Some n => if (n <? 2 ^ 32 - 1)%N then Some n else None
           | None => None
           end
  end.

Fixpoint insert_index {V : Type} (n : N) (e : string * V)
    (xs : list (N * (string * V))) : list (N * (string * V)) :=
  match xs with
  | [] => [(n, e)]
  | (m, e') :: xs' =>
      if (n <? m)%N then (n, e) :: xs else (m, e') :: insert_index n e xs'
  end.

(** The properties whose key is an array index, in ascending index order. *)
Fixpoint index_properties {V : Type} (o : Object V) : list (N * (string * V)) :=
  match o with
  | [] => []
  | (k, v) :: o' =>
      match array_index k with
      | Some n => insert_index n (k, v) (index_properties o')
      | None => index_properties o'
      end
  end.

Definition has_index_key {V : Type} (e : string * V) : bool :=
  match array_index (fst e) with Some _ => true | None => false end.

(** The properties whose key is not an array index, in creation order. *)
Definition named_properties {V : Type} (o : Object V) : list (string * V) :=
  filter (fun e => negb (has_index_key e)) o.

Definition entries {V : Type} (o : Object V) : list (string * V) :=
  map snd (index_properties o) ++ named_properties o.

Definition keys {V : Type} (o : Object V) : list string :=
  map fst (entries o).

End JS.

(** ** Data model *)

(** The [output] field of a record returned by an introspection query.
    [refreshSchema] reads it at three annotated shapes,
    [{label, properties}], [{type, properties}] and [{start, type, end}];
    the model gives the object all five fields, so that each annotated read
    is defined.  A call site reads only the fields of its own shape.

    The model is one of answers of the annotated shape.  An answer that
    resolves without it (a record without [output], a [properties] that is
    no array) makes the source throw inside the [try] of [refreshSchema],
    after [structuredSchema] may have been replaced and before [schema] is;
    no value of these types does that, so the outer [catch] of
    [refreshSchema] is never entered here, and no theorem below speaks of
    the half-replaced cache such a throw leaves behind. *)
Record Output : Type := mkOutput {
  label : string;
  type : string;
  properties : list string;
  start : string;
  end_ : string
}.

(** One record of a query result: [{ output: ... }]. *)
Record Row : Type := mkRow { output : Output }.

(** What [graph.query] resolves to; [data] may be missing. *)
Record QueryResult : Type := mkQueryResult { data : option (list Row) }.

(** [StructuredSchema] of [src/types.ts].  [relationships] holds the
    [output] objects of the relationship query as they came. *)
Record StructuredSchema : Type := mkStructuredSchema {
  nodeProps : JS.Object (list string);
  relProps : JS.Object (list string);
  relationships : list Output
}.

(** ** The world outside the class *)

(** The result of a call that may throw. *)
Inductive Outcome (A : Type) : Type :=
| Returned (a : A)
| Threw (error : JS.Thrown).
Arguments Returned {A} a.
Arguments Threw {A} error.

(** The argument of [FalkorDB.connect]. *)
Record DriverOptions : Type := mkDriverOptions {
  opt_url : option string;
  opt_socket : option (string * Z);
  opt_username : option string;
  opt_password : option string
}.

(** Calls that leave the class, in the order they are made. *)
Inductive Event : Type :=
| FalkorDB_connect_call (options : DriverOptions)
| driver_info_call (driverId : nat)
| driver_selectGraph_call (driverId : nat) (graphName : string)
| driver_close_call (driverId : nat)
| graph_query_call (graphId : nat) (query : string)
| console_log (message : string)
| console_warn (message : string).

Definition Trace : Type := list Event.

(** A graph handle of the driver ([Graph] of the falkordb package).  What
    a query gives depends on everything that happened before it. *)
Record Graph : Type := mkGraph {
  graph_id : nat;
  graph_query : Trace -> string -> Outcome QueryResult
}.

(** A driver ([FalkorDB] of the falkordb package). *)
Record FalkorDB : Type := mkFalkorDB {
  driver_id : nat;
  driver_info : Trace -> Outcome unit;
  driver_selectGraph : Trace -> string -> Outcome Graph;
  driver_close : Trace -> Outcome unit
}.

(** [FalkorDBGraphConfig] of [src/types.ts], with the fields the class
    reads. *)
Record FalkorDBGraphConfig : Type := mkConfig {
  config_host : option string;
  config_port : option Z;
  config_graph : option string;
  config_url : option string;
  config_username : option string;
  config_password : option string;
  config_driver : option FalkorDB;
  config_enhancedSchema : option bool
}.

(** ** The class *)

Record FalkorDBGraph : Type := mkFalkorDBGraph {
  driver : option FalkorDB;
  graph : option Graph;
  schema : string;
  structuredSchema : StructuredSchema;
  enhancedSchema : bool;
  host : string;
  port : Z;
  isExternalDriver : bool;
  database : string;
  timeoutMs : Z;
  enhancedSchemaCypher : bool
}.

Definition with_driver (d : FalkorDB) (this : FalkorDBGraph) : FalkorDBGraph :=
  mkFalkorDBGraph (Some d) (graph this) (schema this) (structuredSchema this)
    (enhancedSchema this) (host this) (port this) (isExternalDriver this)
    (database this) (timeoutMs this) (enhancedSchemaCypher this).

Definition with_graph (g : Graph) (this : FalkorDBGraph) : FalkorDBGraph :=
  mkFalkorDBGraph (driver this) (Some g) (schema this) (structuredSchema this)
    (enhancedSchema this) (host this) (port this) (isExternalDriver this)
    (database this) (timeoutMs this) (enhancedSchemaCypher this).

Definition with_schema (s : string) (this : FalkorDBGraph) : FalkorDBGraph :=
  mkFalkorDBGraph (driver this) (graph this) s (structuredSchema this)
    (enhancedSchema this) (host this) (port this) (isExternalDriver this)
    (database this) (timeoutMs this) (enhancedSchemaCypher this).

Definition with_structuredSchema (s : StructuredSchema) (this : FalkorDBGraph)
    : FalkorDBGraph :=
  mkFalkorDBGraph (driver this) (graph this) (schema this) s
    (enhancedSchema this) (host this) (port this) (isExternalDriver this)
    (database this) (timeoutMs this) (enhancedSchemaCypher this).

(** The field initialiser of [structuredSchema]. *)
Definition initialStructuredSchema : StructuredSchema :=
  mkStructuredSchema JS.empty JS.empty [].

(** ** Methods as state transformers

    A method runs on the object and the trace.  It returns or throws, and
    either way the object and the trace are what it left behind: a throw
    undoes no assignment. *)

Definition M (A : Type) : Type :=
  FalkorDBGraph -> Trace -> Outcome A * FalkorDBGraph * Trace.

Definition ret {A : Type} (a : A) : M A :=
  fun this t => (Returned a, this, t).

Definition throw {A : Type} (e : JS.Thrown) : M A :=
  fun this t => (Threw e, this, t).

Definition bind {A B : Type} (m : M A) (k : A -> M B) : M B :=
  fun this t =>
    match m this t with
    | (Returned a, this', t') => k a this' t'
    | (Threw e, this', t') => (Threw e, this', t')
    end.

(** [try { body } catch (error) { handler }], and [promise.catch(handler)]. *)
Definition try_catch {A : Type} (body : M A) (handler : JS.Thrown -> M A) : M A :=
  fun this t =>
    match body this t with
    | (Returned a, this', t') => (Returned a, this', t')
    | (Threw e, this', t') => handler e this' t'
    end.

Definition get_this : M FalkorDBGraph :=
  fun this t => (Returned this, this, t).

Definition assign (f : FalkorDBGraph -> FalkorDBGraph) : M unit :=
  fun this t => (Returned tt, f this, t).

(** A call out of the class: it is recorded, and its answer is the one the
    callee gives after everything recorded before it. *)
Definition call {A : Type} (ev : Event) (answer : Trace -> Outcome A) : M A :=
  fun this t => (answer t, this, t ++ [ev]).

Declare Scope js_scope.
Delimit Scope js_scope with js.
Notation "x <- c ;; k" := (bind c (fun x => k))
  (at level 100, c at next level, right associativity) : js_scope.
Notation "c ;;; k" := (bind c (fun _ => k))
  (at level 100, right associativity) : js_scope.
Local Open Scope js_scope.

Definition outcome_of {A : Type} (r : Outcome A * FalkorDBGraph * Trace) : Outcome A :=
  fst (fst r).
Definition this_of {A : Type} (r : Outcome A * FalkorDBGraph * Trace) : FalkorDBGraph :=
  snd (fst r).
Definition trace_of {A : Type} (r : Outcome A * FalkorDBGraph * Trace) : Trace :=
  snd r.

(** *** Accessors *)

Definition getSchema (this : FalkorDBGraph) : string := schema this.

Definition getStructuredSchema (this : FalkorDBGraph) : StructuredSchema :=
  structuredSchema this.

Definition isConnected (this : FalkorDBGraph) : bool :=
  match driver this with Some _ => true | None => false end.

Definition hasSelectedGraph (this : FalkorDBGraph) : bool :=
  match graph this with Some _ => true | None => false end.

Definition getConnectionUrl (this : FalkorDBGraph) : string :=
  "http://" ++ host this ++ ":" ++ JS.number_to_string (port this).

(** *** selectGraph, query, verifyConnectivity *)

Definition selectGraph (graphName : string) : M unit :=
  this <- get_this ;;
  match driver this with
  | None =>
      throw (JS.ErrorObject "FalkorDB driver not initialized. Call initialize() first.")
  | Some d =>
      try_catch
        (g <- call (driver_selectGraph_call (driver_id d) graphName)
                   (fun t => driver_selectGraph d t graphName) ;;
         assign (with_graph g))
        (fun error =>
           throw (JS.ErrorObject
                    ("Failed to select graph '" ++ graphName ++ "': "
                     ++ JS.errorMessage error)))
  end.

Definition query (q : string) : M QueryResult :=
  this <- get_this ;;
  match graph this with
  | None => throw (JS.ErrorObject "No graph selected. Call selectGraph() first.")
  | Some g =>
      try_catch
        (call (graph_query_call (graph_id g) q) (fun t => graph_query g t q))
        (fun error =>
           throw (JS.ErrorObject ("Query execution failed: " ++ JS.errorMessage error)))
  end.

Definition verifyConnectivity : M unit :=
  this <- get_this ;;
  match driver this with
  | None => throw (JS.ErrorObject "FalkorDB driver not initialized.")
  | Some d =>
      try_catch
        (call (driver_info_call (driver_id d)) (driver_info d))
        (fun error =>
           throw (JS.ErrorObject
                    ("Failed to verify connectivity: " ++ JS.errorMessage error)))
  end.

(** *** refreshSchema and formatSchema *)

Definition nodePropertiesQuery : string := "
        MATCH (n)
        WITH keys(n) as keys, labels(n) AS labels
        UNWIND labels AS label
        UNWIND keys AS key
        WITH label, collect(DISTINCT key) AS properties
        RETURN {label: label, properties: properties} AS output
      ".

Definition relPropertiesQuery : string := "
        MATCH ()-[r]->()
        WITH keys(r) as keys, type(r) AS type
        UNWIND keys AS key
        WITH type, collect(DISTINCT key) AS properties
        RETURN {type: type, properties: properties} AS output
      ".

Definition relQuery : string := "
        MATCH (n)-[r]->(m)
        UNWIND labels(n) as src_label
        UNWIND labels(m) as dst_label
        RETURN DISTINCT {start: src_label, type: type(r), end: dst_label} AS output
      ".

Definition enhanceSchemaDetails : M unit :=
  call (console_log "Enhanced schema details not yet implemented for FalkorDB.")
       (fun _ => Returned tt).

(** [`${label}: {${props.join(", ")}}`] *)
Definition formatProps (e : string * list string) : string :=
  fst e ++ ": {" ++ JS.join ", " (snd e) ++ "}".

(** [`(:${rel.start}) -[:${rel.type}]-> (:${rel.end})`] *)
Definition formatRelationship (rel : Output) : string :=
  "(:" ++ start rel ++ ") -[:" ++ type rel ++ "]-> (:" ++ end_ rel ++ ")".

Definition formatSchema (this : FalkorDBGraph) : string :=
  let '(mkStructuredSchema nodeProps relProps relationships) := structuredSchema this in
  let formattedNodeProps :=
    JS.join JS.newline (map formatProps (JS.entries nodeProps)) in
  let formattedRelProps :=
    JS.join JS.newline (map formatProps (JS.entries relProps)) in
  let formattedRelationships :=
    JS.join JS.newline (map formatRelationship relationships) in
  JS.join JS.newline
    [ "Node properties are the following:";
      formattedNodeProps;
      "Relationship properties are the following:";
      formattedRelProps;
      "The relationships are the following:";
      formattedRelationships ].

(** The three queries are started in the order of the array given to
    [Promise.all]; each has its own [catch], so none of them rejects. *)
Definition refreshSchema : M unit :=
  this <- get_this ;;
  match graph this with
  | None => throw (JS.ErrorObject "No graph selected. Call selectGraph() first.")
  | Some _ =>
      try_catch
        (nodePropertiesResult <-
           try_catch (query nodePropertiesQuery)
                     (fun _ => ret (mkQueryResult (Some []))) ;;
         relationshipsPropertiesResult <-
           try_catch (query relPropertiesQuery)
                     (fun _ => ret (mkQueryResult (Some []))) ;;
         relationshipsResult <-
           try_catch (query relQuery)
                     (fun _ => ret (mkQueryResult (Some []))) ;;
         let nodeProperties := JS.or_empty (data nodePropertiesResult) in
         let relationshipsProperties :=
           JS.or_empty (data relationshipsPropertiesResult) in
         let relationships := JS.or_empty (data relationshipsResult) in
         assign (with_structuredSchema
                   (mkStructuredSchema
                      (JS.fromEntries
                         (map (fun el => (label (output el), properties (output el)))
                              nodeProperties))
                      (JS.fromEntries
                         (map (fun el => (type (output el), properties (output el)))
                              relationshipsProperties))
                      (map (fun el => output el) relationships))) ;;;
         this <- get_this ;;
         (if enhancedSchema this then enhanceSchemaDetails else ret tt) ;;;
         this <- get_this ;;
         assign (with_schema (formatSchema this)))
        (fun error =>
           throw (JS.ErrorObject
                    ("Failed to refresh schema: " ++ JS.errorMessage error)))
  end.

(** *** close *)

Definition close : M unit :=
  try_catch
    (this <- get_this ;;
     match driver this with
     | Some d =>
         if negb (isExternalDriver this)
         then call (driver_close_call (driver_id d)) (driver_close d)
         else ret tt
     | None => ret tt
     end)
    (fun error =>
       call (console_warn
               ("Warning: Error closing FalkorDB connection: "
                ++ JS.errorMessage error))
            (fun _ => Returned tt)).

(** *** executeQueries, clearGraph, addGraphDocuments *)

Fixpoint executeQueries_loop (queries : list string) (results : list QueryResult)
    : M (list QueryResult) :=
  match queries with
  | [] => ret results
  | q :: rest =>
      result <-
        try_catch (query q)
          (fun error =>
             throw (JS.ErrorObject
                      ("Failed executing query " ++ JS.dquote ++ q ++ JS.dquote
                       ++ ": " ++ JS.errorMessage error))) ;;
      executeQueries_loop rest (results ++ [result])
  end.

Definition executeQueries (queries : list string) : M (list QueryResult) :=
  this <- get_this ;;
  match graph this with
  | None => throw (JS.ErrorObject "No graph selected. Call selectGraph() first.")
  | Some _ => executeQueries_loop queries []
  end.

Definition clearGraph : M unit :=
  this <- get_this ;;
  match graph this with
  | None => throw (JS.ErrorObject "No graph selected. Call selectGraph() first.")
  | Some _ =>
      try_catch
        (query "MATCH (n) DETACH DELETE n" ;;; ret tt)
        (fun error =>
           throw (JS.ErrorObject ("Failed to clear graph: " ++ JS.errorMessage error)))
  end.

Definition addGraphDocuments : M unit :=
  throw (JS.ErrorObject
           "addGraphDocuments is not implemented for FalkorDB. Please use the query() method directly to add data.").

(** *** The constructor and initialize

    Three things come from outside the repository and are taken as they
    are: the [URL] constructor ([None] when it throws), [parseInt], and
    [FalkorDB.connect] of the driver package. *)

Section Platform.

Variable new_URL : string -> option JS.URL.
Variable parseInt : string -> Z -> Z.
Variable FalkorDB_connect : Trace -> DriverOptions -> Outcome FalkorDB.

(** Nothing in the constructor's [try] block throws past the inner
    [catch], so it is a function of the configuration. *)
Definition constructor (config : FalkorDBGraphConfig) : FalkorDBGraph :=
  let enhancedSchema := JS.nullish (config_enhancedSchema config) false in
  let isExternalDriver :=
    match config_driver config with Some _ => true | None => false end in
  let '(host, port) :=
    match config_driver config with
    | Some _ =>
        (JS.nullish (config_host config) "localhost",
         JS.nullish (config_port config) 6379%Z)
    | None =>
        match JS.truthy (config_url config) with
        | Some url =>
            match new_URL url with
            | Some parsedUrl =>
                (match JS.hostname parsedUrl with
                 | EmptyString => "localhost"
                 | h => h
                 end,
                 match JS.port parsedUrl with
                 | EmptyString => 6379%Z
                 | p => parseInt p 10%Z
                 end)
            | None =>
                (JS.nullish (config_host config) "localhost",
                 JS.nullish (config_port config) 6379%Z)
            end
        | None =>
            (JS.nullish (config_host config) "localhost",
             JS.nullish (config_port config) 6379%Z)
        end
    end in
  mkFalkorDBGraph None None "" initialStructuredSchema enhancedSchema
    host port isExternalDriver "falkordb" 30000%Z false.

Definition driverOptions_of (config : FalkorDBGraphConfig) (graph : FalkorDBGraph)
    : DriverOptions :=
  mkDriverOptions
    (JS.truthy (config_url config))
    (match JS.truthy (config_url config) with
     | Some _ => None
     | None => Some (host graph, port graph)
     end)
    (JS.truthy (config_username config))
    (JS.truthy (config_password config)).

Definition initialize (config : FalkorDBGraphConfig) (t : Trace)
    : Outcome FalkorDBGraph * Trace :=
  let graph := constructor config in
  let body : M unit :=
    (match config_driver config with
     | Some d => assign (with_driver d)
     | None =>
         let driverOptions := driverOptions_of config graph in
         d <- call (FalkorDB_connect_call driverOptions)
                   (fun t => FalkorDB_connect t driverOptions) ;;
         assign (with_driver d)
     end) ;;;
    verifyConnectivity ;;;
    match JS.truthy (config_graph config) with
    | Some graphName => selectGraph graphName
    | None => ret tt
    end in
  match body graph t with
  | (Returned _, graph', t') => (Returned graph', t')
  | (Threw error, graph', t') =>
      (Threw (JS.ErrorObject
                ("Failed to connect to FalkorDB at " ++ host graph' ++ ":"
                 ++ JS.number_to_string (port graph') ++ ": "
                 ++ JS.errorMessage error)),
       t')
  end.

End Platform.

(** ** What a refresh sees of the backend *)

(** The calls a refresh makes on the graph handle [g], in order. *)
Definition nodePropertiesCall (g : Graph) : Event :=
  graph_query_call (graph_id g) nodePropertiesQuery.
Definition relPropertiesCall (g : Graph) : Event :=
  graph_query_call (graph_id g) relPropertiesQuery.
Definition relCall (g : Graph) : Event :=
  graph_query_call (graph_id g) relQuery.

(** What the graph handle answers to each of them, for a refresh that
    starts after the trace [t]. *)
Definition nodePropertiesAnswer (g : Graph) (t : Trace) : Outcome QueryResult :=
  graph_query g t nodePropertiesQuery.
Definition relPropertiesAnswer (g : Graph) (t : Trace) : Outcome QueryResult :=
  graph_query g (t ++ [nodePropertiesCall g]) relPropertiesQuery.
Definition relAnswer (g : Graph) (t : Trace) : Outcome QueryResult :=
  graph_query g ((t ++ [nodePropertiesCall g]) ++ [relPropertiesCall g]) relQuery.

Definition failed {A : Type} (o : Outcome A) : Prop :=
  match o with Threw _ => True | Returned _ => False end.

(** The records a successful answer carries. *)
Definition records (r : QueryResult) : list Row := JS.or_empty (data r).

(** The (start, type, end) triple of a relationship record. *)
Definition triple (o : Output) : string * string * string :=
  (start o, type o, end_ o).

(** A schema without repetition: no property name twice under a label or
    under a relationship type, no triple twice. *)
Definition duplicate_free (s : StructuredSchema) : Prop :=
  (forall l ps, In (l, ps) (JS.entries (nodeProps s)) -> NoDup ps) /\
  (forall ty ps, In (ty, ps) (JS.entries (relProps s)) -> NoDup ps) /\
  NoDup (map triple (relationships s)).

(** What a query contributes to the schema: the records it returned, or
    none when it threw. *)
Definition contributed (o : Outcome QueryResult) : list Row :=
  match o with
  | Returned r => records r
  | Threw _ => []
  end.

(** The three dimensions of the schema, each from the records of its own
    query. *)
Definition nodePropsOf (rows : list Row) : JS.Object (list string) :=
  JS.fromEntries (map (fun el => (label (output el), properties (output el))) rows).
Definition relPropsOf (rows : list Row) : JS.Object (list string) :=
  JS.fromEntries (map (fun el => (type (output el), properties (output el))) rows).
Definition relationshipsOf (rows : list Row) : list Output :=
  map (fun el => output el) rows.

(** The schema a refresh computes after the trace [t] on the graph [g]. *)
Definition discovered (g : Graph) (t : Trace) : StructuredSchema :=
  mkStructuredSchema
    (nodePropsOf (contributed (nodePropertiesAnswer g t)))
    (relPropsOf (contributed (relPropertiesAnswer g t)))
    (relationshipsOf (contributed (relAnswer g t))).

(** ** The rendering as the specification words it *)

(** Lines, each but the last followed by a line feed. *)
Fixpoint lines (ls : list string) : string :=
  match ls with
  | [] => ""
  | [l] => l
  | l :: rest => l ++ JS.newline ++ lines rest
  end.

(** Names separated by a comma and a space. *)
Fixpoint comma_separated (names : list string) : string :=
  match names with
  | [] => ""
  | [n] => n
  | n :: rest => n ++ ", " ++ comma_separated rest
  end.

(** [label: {prop1, prop2, ...}] *)
Definition properties_line (e : string * list string) : string :=
  fst e ++ ": {" ++ comma_separated (snd e) ++ "}".

(** [(:start) -[:type]-> (:end)] *)
Definition triple_line (o : Output) : string :=
  "(:" ++ start o ++ ") -[:" ++ type o ++ "]-> (:" ++ end_ o ++ ")".

Definition rendering (s : StructuredSchema) : string :=
  "Node properties are the following:" ++ JS.newline
  ++ lines (map properties_line (JS.entries (nodeProps s))) ++ JS.newline
  ++ "Relationship properties are the following:" ++ JS.newline
  ++ lines (map properties_line (JS.entries (relProps s))) ++ JS.newline
  ++ "The relationships are the following:" ++ JS.newline
  ++ lines (map triple_line (relationships s)).

(** The three headers, each followed by an empty body. *)
Definition emptyRendering : string :=
  "Node properties are the following:" ++ JS.newline ++ "" ++ JS.newline
  ++ "Relationship properties are the following:" ++ JS.newline ++ "" ++ JS.newline
  ++ "The relationships are the following:" ++ JS.newline ++ "".

(** The lines of a text: what [text.split("\n")] gives. *)
Fixpoint split_lines (s : string) : list string :=
  match s with
  | EmptyString => [""]
  | String c rest =>
      if Ascii.eqb c (ascii_of_nat 10)
      then "" :: split_lines rest
      else match split_lines rest with
           | l :: ls => String c l :: ls
           | [] => [String c ""]
           end
  end.

(** A name without a line feed in it. *)
Fixpoint one_line (s : string) : bool :=
  match s with
  | EmptyString => true
  | String c rest => negb (Ascii.eqb c (ascii_of_nat 10)) && one_line rest
  end.

(** The lines a section body takes: its entry lines, or one empty line
    when it has no entry. *)
Definition body_lines (ls : list string) : list string :=
  match ls with
  | [] => [""]
  | _ => ls
  end.

(** No label, relationship type or property name of the schema has a line
    feed in it. *)
Definition names_on_one_line (s : StructuredSchema) : Prop :=
  Forall (fun e => one_line (fst e) = true
                   /\ Forall (fun p => one_line p = true) (snd e))
         (JS.entries (nodeProps s))
  /\ Forall (fun e => one_line (fst e) = true
                      /\ Forall (fun p => one_line p = true) (snd e))
            (JS.entries (relProps s))
  /\ Forall (fun o => one_line (start o) = true
                      /\ one_line (type o) = true
                      /\ one_line (end_ o) = true)
            (relationships s).

(** ** The public methods as calls on an object *)

Inductive Call : Type :=
| call_selectGraph (graphName : string)
| call_query (q : string)
| call_verifyConnectivity
| call_refreshSchema
| call_close
| call_executeQueries (queries : list string)
| call_clearGraph
| call_addGraphDocuments.

(** The object and the trace a call leaves behind, whether it returned or
    threw. *)
Definition perform (c : Call) (this : FalkorDBGraph) (t : Trace)
    : FalkorDBGraph * Trace :=
  match c with
  | call_selectGraph graphName =>
      let r := selectGraph graphName this t in (this_of r, trace_of r)
  | call_query q => let r := query q this t in (this_of r, trace_of r)
  | call_verifyConnectivity =>
      let r := verifyConnectivity this t in (this_of r, trace_of r)
  | call_refreshSchema => let r := refreshSchema this t in (this_of r, trace_of r)
  | call_close => let r := close this t in (this_of r, trace_of r)
  | call_executeQueries queries =>
      let r := executeQueries queries this t in (this_of r, trace_of r)
  | call_clearGraph => let r := clearGraph this t in (this_of r, trace_of r)
  | call_addGraphDocuments =>
      let r := addGraphDocuments this t in (this_of r, trace_of r)
  end.

(** An object on which a refresh has returned, and on which nothing but
    other methods were called since; a further refresh that returns starts
    anew.  The trace at each call is arbitrary: other users of the driver
    may have acted in between. *)
Inductive Refreshed : FalkorDBGraph -> Prop :=
| refreshed_now (this : FalkorDBGraph) (t : Trace) (this' : FalkorDBGraph) (t' : Trace) :
    refreshSchema this t = (Returned tt, this', t') -> Refreshed this'
| refreshed_then (this : FalkorDBGraph) (c : Call) (t : Trace) :
    Refreshed this -> c <> call_refreshSchema ->
    Refreshed (fst (perform c this t)).

Section Lifetimes.

Variable new_URL : string -> option JS.URL.
Variable parseInt : string -> Z -> Z.
Variable FalkorDB_connect : Trace -> DriverOptions -> Outcome FalkorDB.

(** The objects a program can hold for a configuration: made by the
    constructor or by [initialize], then used through the methods. *)
Inductive Constructed (config : FalkorDBGraphConfig) : FalkorDBGraph -> Prop :=
| constructed_new :
    Constructed config (constructor new_URL parseInt config)
| constructed_initialize (t : Trace) (this : FalkorDBGraph) (t' : Trace) :
    initialize new_URL parseInt FalkorDB_connect config t = (Returned this, t') ->
    Constructed config this
| constructed_call (this : FalkorDBGraph) (c : Call) (t : Trace) :
    Constructed config this ->
    Constructed config (fst (perform c this t)).

(** The objects on which no refresh has returned yet: made by the
    constructor or by [initialize], then used through the other methods,
    or through refreshes that threw. *)
Inductive Unrefreshed (config : FalkorDBGraphConfig) : FalkorDBGraph -> Prop :=
| unrefreshed_new :
    Unrefreshed config (constructor new_URL parseInt config)
| unrefreshed_initialize (t : Trace) (this : FalkorDBGraph) (t' : Trace) :
    initialize new_URL parseInt FalkorDB_connect config t = (Returned this, t') ->
    Unrefreshed config this
| unrefreshed_call (this : FalkorDBGraph) (c : Call) (t : Trace) :
    Unrefreshed config this -> c <> call_refreshSchema ->
    Unrefreshed config (fst (perform c this t))
| unrefreshed_thrown (this : FalkorDBGraph) (t : Trace) :
    Unrefreshed config this ->
    failed (outcome_of (refreshSchema this t)) ->
    Unrefreshed config (this_of (refreshSchema this t)).

(** The driver of an object: the one given in the configuration, or one
    that [FalkorDB.connect] returned for the options of the
    configuration. *)
Definition driver_origin (config : FalkorDBGraphConfig) (d : FalkorDB) : Prop :=
  match config_driver config with
  | Some given => d = given
  | None =>
      exists t,
        FalkorDB_connect t
          (driverOptions_of config (constructor new_URL parseInt config))
        = Returned d
  end.

End Lifetimes.

(** The trace after the enhanced pass, which runs when the object asks for
    it. *)
Definition enhancedTrace (this : FalkorDBGraph) (t : Trace) : Trace :=
  if enhancedSchema this
  then t ++ [console_log "Enhanced schema details not yet implemented for FalkorDB."]
  else t.

(** ** Sample backends and objects *)

Module Examples.

Definition nodeRow (l : string) (ps : list string) : Row :=
  mkRow (mkOutput l "" ps "" "").
Definition relPropsRow (ty : string) (ps : list string) : Row :=
  mkRow (mkOutput "" ty ps "" "").
Definition relRow (s ty e : string) : Row :=
  mkRow (mkOutput "" ty [] s e).

(** A graph without nodes and relationships. *)
Definition emptyGraph : Graph :=
  mkGraph 2 (fun _ _ => Returned (mkQueryResult (Some []))).

(** Alice and Bob, two persons, one of whom knows the other. *)
Definition socialGraph : Graph :=
  mkGraph 3
    (fun _ q =>
       if String.eqb q nodePropertiesQuery
       then Returned (mkQueryResult (Some [nodeRow "Person" ["name"; "age"]]))
       else if String.eqb q relPropertiesQuery
       then Returned (mkQueryResult (Some [relPropsRow "KNOWS" ["since"]]))
       else if String.eqb q relQuery
       then Returned (mkQueryResult (Some [relRow "Person" "KNOWS" "Person"]))
       else Returned (mkQueryResult None)).

(** The same graph behind a backend on which the relationship-properties
    query times out. *)
Definition flakyGraph : Graph :=
  mkGraph 4
    (fun t q =>
       if String.eqb q relPropertiesQuery
       then Threw (JS.ErrorObject "Query timed out")
       else graph_query socialGraph t q).

(** A backend whose records repeat themselves. *)
Definition repeatingGraph : Graph :=
  mkGraph 5
    (fun _ q =>
       if String.eqb q nodePropertiesQuery
       then Returned (mkQueryResult (Some [nodeRow "Person" ["name"; "name"]]))
       else if String.eqb q relPropertiesQuery
       then Returned (mkQueryResult (Some [relPropsRow "KNOWS" ["since"; "since"]]))
       else if String.eqb q relQuery
       then Returned (mkQueryResult (Some [relRow "Person" "KNOWS" "Person";
                                           relRow "Person" "KNOWS" "Person"]))
       else Returned (mkQueryResult None)).

(** The same graph on a connection that is lost after the fifth call of
    the trace: from then on every query throws. *)
Definition droppingGraph : Graph :=
  mkGraph 1
    (fun t q =>
       if (List.length t <? 5)%nat
       then graph_query socialGraph t q
       else Threw (JS.ErrorObject "Connection is closed.")).

Definition personSchema : StructuredSchema :=
  mkStructuredSchema
    [("Person", ["name"; "age"])]
    [("KNOWS", ["since"])]
    [mkOutput "" "KNOWS" [] "Person" "Person"].

(** A platform for the samples: no string parses as a URL, and
    [FalkorDB.connect] hands out [ownDriver]. *)
Definition new_URL : string -> option JS.URL := fun _ => None.
Definition parseInt : string -> Z -> Z := fun _ _ => 0%Z.

(** A driver made by the caller, which selects the graph [g] whatever the
    name. *)
Definition driverFor (g : Graph) : FalkorDB :=
  mkFalkorDB 7 (fun _ => Returned tt) (fun _ _ => Returned g) (fun _ => Returned tt).

(** The driver [FalkorDB.connect] returns; closing it throws. *)
Definition ownDriver : FalkorDB :=
  mkFalkorDB 8 (fun _ => Returned tt) (fun _ _ => Returned socialGraph)
    (fun _ => Threw (JS.ErrorObject "Socket already closed")).

Definition FalkorDB_connect : Trace -> DriverOptions -> Outcome FalkorDB :=
  fun _ _ => Returned ownDriver.

(** [{ driver: driverFor(g), graph: "people", enhancedSchema: enhanced }] *)
Definition configFor (g : Graph) (enhanced : bool) : FalkorDBGraphConfig :=
  mkConfig None None (Some "people") None None None (Some (driverFor g))
    (Some enhanced).

(** [{ host: "localhost", port: 6379, graph: "own" }] *)
Definition ownConfig : FalkorDBGraphConfig :=
  mkConfig (Some "localhost") (Some 6379%Z) (Some "own") None None None None None.

(** [{ host: "localhost", port: 6379, enhancedSchema: false }] *)
Definition bareConfig : FalkorDBGraphConfig :=
  mkConfig (Some "localhost") (Some 6379%Z) None None None None None (Some false).

(** [new FalkorDBGraph(bareConfig)]: no driver, no graph. *)
Definition bare : FalkorDBGraph := constructor new_URL parseInt bareConfig.

(** The object [initialize(configFor g enhanced)] returns, and the trace
    it leaves: connected, the graph selected, no refresh yet. *)
Definition session (g : Graph) (enhanced : bool) : FalkorDBGraph :=
  with_graph g
    (with_driver (driverFor g) (constructor new_URL parseInt (configFor g enhanced))).
Definition opening : Trace :=
  [driver_info_call 7; driver_selectGraph_call 7 "people"].

(** The object [initialize(ownConfig)] returns. *)
Definition owned : FalkorDBGraph :=
  with_graph socialGraph (with_driver ownDriver (constructor new_URL parseInt ownConfig)).

(** The session on the dropping graph after its first refresh, which the
    connection outlives. *)
Definition refreshedOnce : FalkorDBGraph :=
  this_of (refreshSchema (session droppingGraph false) opening).
Definition refreshedOnceTrace : Trace :=
  trace_of (refreshSchema (session droppingGraph false) opening).

End Examples.


(** ** Words for the rest of the class *)

(** [obj[k]]: the value of an own property, if there is one. *)
Fixpoint get_property {V : Type} (k : string) (o : JS.Object V) : option V :=
  match o with
  | [] => None
  | (k', v) :: o' => if String.eqb k k' then Some v else get_property k o'
  end.

(** The property list of the last record of a query result whose key (its
    label, or its relationship type) is [k]. *)
Definition last_record (key : Output -> string) (k : string) (rows : list Row)
    : option (list string) :=
  option_map (fun el => properties (output el))
    (find (fun el => String.eqb k (key (output el))) (rev rows)).

(** The keys of a list in the order in which each appears first. *)
Fixpoint first_appearances (seen : list string) (ks : list string) : list string :=
  match ks with
  | [] => []
  | k :: rest =>
      if existsb (String.eqb k) seen
      then first_appearances seen rest
      else k :: first_appearances (k :: seen) rest
  end.

(** The calls that running [queries] one after another makes on [g]. *)
Definition query_calls (g : Graph) (queries : list string) : list Event :=
  map (graph_query_call (graph_id g)) queries.

(** What [g] answers to [queries] asked one after another, the first after
    the trace [t]. *)
Fixpoint answers (g : Graph) (t : Trace) (queries : list string)
    : list (Outcome QueryResult) :=
  match queries with
  | [] => []
  | q :: rest =>
      graph_query g t q :: answers g (t ++ [graph_query_call (graph_id g) q]) rest
  end.

(** How often the close operation of driver [d] was called in a trace. *)
Definition close_calls (d : nat) (t : Trace) : nat :=
  List.length
    (filter (fun ev => match ev with
                       | driver_close_call d' => Nat.eqb d d'
                       | _ => false
                       end) t).

(** How often [FalkorDB.connect] was called in a trace. *)
Definition connect_calls (t : Trace) : nat :=
  List.length
    (filter (fun ev => match ev with
                       | FalkorDB_connect_call _ => true
                       | _ => false
                       end) t).

(** The error every guarded method throws on an object without a graph. *)
Definition noGraphSelected : JS.Thrown :=
  JS.ErrorObject "No graph selected. Call selectGraph() first.".

(** The error [initialize] throws: the address the object shows, then what
    went wrong. *)
Definition connectFailure (this : FalkorDBGraph) (message : string) : JS.Thrown :=
  JS.ErrorObject
    ("Failed to connect to FalkorDB at " ++ host this ++ ":"
     ++ JS.number_to_string (port this) ++ ": " ++ message).

(** What holds of every object a program can hold: a selected graph came
    from a driver, and an object without a graph has the cache of a new
    object. *)
Definition coherent (this : FalkorDBGraph) : Prop :=
  (hasSelectedGraph this = true -> isConnected this = true)
  /\ (hasSelectedGraph this = false ->
      getSchema this = "" /\ getStructuredSchema this = initialStructuredSchema).

(** What [initialize] does once it has the driver [d], on the object [this]
    the constructor made: it asks the driver for its info, then, when the
    configuration names a graph, for that graph. *)
Definition opened_with (config : FalkorDBGraphConfig) (d : FalkorDB)
    (this : FalkorDBGraph) (t : Trace) : Outcome FalkorDBGraph * Trace :=
  match driver_info d t with
  | Threw e =>
      (Threw (connectFailure this
                ("Failed to verify connectivity: " ++ JS.errorMessage e)),
       t ++ [driver_info_call (driver_id d)])
  | Returned _ =>
      match JS.truthy (config_graph config) with
      | None => (Returned (with_driver d this), t ++ [driver_info_call (driver_id d)])
      | Some graphName =>
          match driver_selectGraph d (t ++ [driver_info_call (driver_id d)]) graphName with
          | Returned g =>
              (Returned (with_graph g (with_driver d this)),
               (t ++ [driver_info_call (driver_id d)])
               ++ [driver_selectGraph_call (driver_id d) graphName])
          | Threw e =>
              (Threw (connectFailure this
                        ("Failed to select graph '" ++ graphName ++ "': "
                         ++ JS.errorMessage e)),
               (t ++ [driver_info_call (driver_id d)])
               ++ [driver_selectGraph_call (driver_id d) graphName])
          end
      end
  end.

(** More samples. *)
Module Samples.

(** A platform on which one URL parses. *)
Definition new_URL : string -> option JS.URL :=
  fun url =>
    if String.eqb url "falkor://db.example:7000"
    then Some (JS.mkURL "db.example" "7000")
    else None.
Definition parseInt : string -> Z -> Z :=
  fun digits _ => if String.eqb digits "7000" then 7000%Z else 0%Z.

(** [{ url: "falkor://db.example:7000", host: "invalid-host", port: 9999,
       graph: "mixed" }] *)
Definition mixedConfig : FalkorDBGraphConfig :=
  mkConfig (Some "invalid-host") (Some 9999%Z) (Some "mixed")
    (Some "falkor://db.example:7000") None None None None.

(** [{ url: "not a url", host: "db.internal", username: "", graph: "" }] *)
Definition brokenUrlConfig : FalkorDBGraphConfig :=
  mkConfig (Some "db.internal") None (Some "") (Some "not a url") (Some "") None None None.

(** A driver that is up but knows no graph. *)
Definition graphlessDriver : FalkorDB :=
  mkFalkorDB 9 (fun _ => Returned tt)
    (fun _ _ => Threw (JS.ErrorObject "Unknown graph"))
    (fun _ => Returned tt).

Definition unreachable : Trace -> DriverOptions -> Outcome FalkorDB :=
  fun _ _ => Threw (JS.OtherValue "ECONNREFUSED").

(** A backend that reports the label Person in two records, around one
    for Movie. *)
Definition splitGraph : Graph :=
  mkGraph 6
    (fun _ q =>
       if String.eqb q nodePropertiesQuery
       then Returned (mkQueryResult
                        (Some [Examples.nodeRow "Person" ["name"];
                               Examples.nodeRow "Movie" ["title"];
                               Examples.nodeRow "Person" ["name"; "age"]]))
       else Returned (mkQueryResult (Some []))).

End Samples.

(** ** Facts about objects used as maps *)

Module JSFacts.

Lemma set_keys {V : Type} (k : string) (v : V) (o : JS.Object V) :
  forall k', In k' (map fst (JS.set k v o)) -> k' = k \/ In k' (map fst o).
Proof.
  induction o as [| [k0 v0] o IH]; simpl; intros k' Hin.
  - destruct Hin as [<- | []]. now left.
  - destruct (String.eqb k k0) eqn:E; simpl in Hin.
    + apply String.eqb_eq in E. subst k0.
      destruct Hin as [<- | Hin]; [now left | right; now right].
    + destruct Hin as [<- | Hin]; [right; now left |].
      destruct (IH _ Hin) as [-> | H]; [now left | right; now right].
Qed.

Lemma set_NoDup {V : Type} (k : string) (v : V) (o : JS.Object V) :
  NoDup (map fst o) -> NoDup (map fst (JS.set k v o)).
Proof.
  induction o as [| [k0 v0] o IH]; simpl; intros Hnd.
  - constructor; [intros [] | constructor].
  - inversion Hnd as [| ? ? Hnotin Hnd']; subst.
    destruct (String.eqb k k0) eqn:E; simpl.
    + apply String.eqb_eq in E. subst k0. now constructor.
    + constructor; [| now apply IH].
      intros Hin. apply set_keys in Hin. destruct Hin as [-> | Hin].
      * rewrite String.eqb_refl in E. discriminate.
      * contradiction.
Qed.

Lemma set_In {V : Type} (k : string) (v : V) (o : JS.Object V) :
  forall e, In e (JS.set k v o) -> e = (k, v) \/ In e o.
Proof.
  induction o as [| [k0 v0] o IH]; simpl; intros e Hin.
  - destruct Hin as [<- | []]. now left.
  - destruct (String.eqb k k0); simpl in Hin.
    + destruct Hin as [<- | Hin]; [now left | right; now right].
    + destruct Hin as [<- | Hin]; [right; now left |].
      destruct (IH _ Hin) as [-> | H]; [now left | right; now right].
Qed.

Lemma fold_set_NoDup {V : Type} (es : list (string * V)) :
  forall acc : JS.Object V,
    NoDup (map fst acc) ->
    NoDup (map fst (fold_left (fun o e => JS.set (fst e) (snd e) o) es acc)).
Proof.
  induction es as [| e es IH]; simpl; intros acc Hacc; [exact Hacc |].
  apply IH. now apply set_NoDup.
Qed.

Lemma fold_set_In {V : Type} (es : list (string * V)) :
  forall (acc : JS.Object V) e,
    In e (fold_left (fun o e => JS.set (fst e) (snd e) o) es acc) ->
    In e es \/ In e acc.
Proof.
  induction es as [| e0 es IH]; simpl; intros acc e Hin; [now right |].
  destruct (IH _ _ Hin) as [H | H]; [left; now right |].
  apply set_In in H. destruct H as [-> | H]; [| now right].
  left. left. now destruct e0.
Qed.

(** An object built by [Object.fromEntries] has each key once. *)
Lemma fromEntries_NoDup {V : Type} (es : list (string * V)) :
  NoDup (map fst (JS.fromEntries es)).
Proof. apply fold_set_NoDup. constructor. Qed.

(** Every property of the object is one of the entries given. *)
Lemma fromEntries_In {V : Type} (es : list (string * V)) (e : string * V) :
  In e (JS.fromEntries es) -> In e es.
Proof.
  intros Hin. apply fold_set_In in Hin. destruct Hin as [H | []]. exact H.
Qed.

Lemma insert_index_Permutation {V : Type} (n : N) (e : string * V) xs :
  Permutation (JS.insert_index n e xs) ((n, e) :: xs).
Proof.
  induction xs as [| [m e'] xs IH]; simpl; [reflexivity |].
  destruct (n <? m)%N; [reflexivity |].
  rewrite IH. apply perm_swap.
Qed.

Lemma index_properties_Permutation {V : Type} (o : JS.Object V) :
  Permutation (map snd (JS.index_properties o)) (filter JS.has_index_key o).
Proof.
  induction o as [| [k v] o IH]; simpl; [reflexivity |].
  unfold JS.has_index_key at 1. simpl.
  destruct (JS.array_index k) as [n |]; [| exact IH].
  rewrite (Permutation_map snd (insert_index_Permutation n (k, v) _)).
  simpl. now apply perm_skip.
Qed.

Lemma filter_split_Permutation {A : Type} (f : A -> bool) (l : list A) :
  Permutation (filter f l ++ filter (fun a => negb (f a)) l) l.
Proof.
  induction l as [| a l IH]; simpl; [reflexivity |].
  destruct (f a); simpl.
  - now apply perm_skip.
  - symmetry. apply Permutation_cons_app. now symmetry.
Qed.

(** [Object.entries] lists every property once: it reorders, and no
    more. *)
Lemma entries_Permutation {V : Type} (o : JS.Object V) :
  Permutation (JS.entries o) o.
Proof.
  unfold JS.entries.
  rewrite index_properties_Permutation.
  apply filter_split_Permutation.
Qed.

Lemma entries_In {V : Type} (o : JS.Object V) (e : string * V) :
  In e (JS.entries o) <-> In e o.
Proof.
  split; apply Permutation_in;
    [apply entries_Permutation | symmetry; apply entries_Permutation].
Qed.

Lemma keys_NoDup {V : Type} (o : JS.Object V) :
  NoDup (map fst o) -> NoDup (JS.keys o).
Proof.
  intros H. unfold JS.keys.
  eapply Permutation_NoDup; [| exact H].
  apply Permutation_map. symmetry. apply entries_Permutation.
Qed.

(** When no key is an array index, [Object.entries] is creation order. *)
Lemma entries_named {V : Type} (o : JS.Object V) :
  (forall e, In e o -> JS.array_index (fst e) = None) ->
  JS.entries o = o.
Proof.
  intros H. unfold JS.entries, JS.named_properties.
  induction o as [| [k v] o IH]; simpl; [reflexivity |].
  pose proof (H (k, v) (or_introl eq_refl)) as Hk. simpl in Hk.
  unfold JS.has_index_key at 1. simpl. rewrite Hk. simpl.
  assert (Ho : forall e, In e o -> JS.array_index (fst e) = None).
  { intros e He. apply H. now right. }
  specialize (IH Ho).
  destruct (JS.index_properties o) as [| p ps] eqn:Hi.
  - simpl in *. now f_equal.
  - exfalso.
    assert (Hin : In (snd p) (filter JS.has_index_key o)).
    { eapply Permutation_in; [apply index_properties_Permutation |].
      rewrite Hi. now left. }
    apply filter_In in Hin. destruct Hin as [Hin Hidx].
    unfold JS.has_index_key in Hidx. now rewrite (Ho _ Hin) in Hidx.
Qed.

End JSFacts.

(** ** What refreshSchema does *)

Lemma refreshSchema_unselected (this : FalkorDBGraph) (t : Trace) :
  graph this = None ->
  refreshSchema this t =
    (Threw (JS.ErrorObject "No graph selected. Call selectGraph() first."), this, t).
Proof.
  intros Hg. unfold refreshSchema, bind, get_this. rewrite Hg. reflexivity.
Qed.

(** With a graph selected a refresh returns, whatever the three queries
    do, and leaves the discovered schema and its rendering in the cache. *)
Lemma refreshSchema_selected (this : FalkorDBGraph) (g : Graph) (t : Trace) :
  graph this = Some g ->
  refreshSchema this t =
    (Returned tt,
     with_schema
       (formatSchema (with_structuredSchema (discovered g t) this))
       (with_structuredSchema (discovered g t) this),
     enhancedTrace this
       (((t ++ [nodePropertiesCall g]) ++ [relPropertiesCall g]) ++ [relCall g])).
Proof.
  intros Hg. destruct this as [dr gr sc ss en ho po ex db tm ec].
  simpl in Hg. subst gr.
  unfold discovered, nodePropertiesAnswer, relPropertiesAnswer, relAnswer,
    nodePropertiesCall, relPropertiesCall, relCall, enhancedTrace.
  unfold refreshSchema, enhanceSchemaDetails, query, try_catch, bind, get_this,
    call, assign, ret, throw.
  simpl.
  repeat match goal with
         | |- context [graph_query g ?t0 ?q] =>
             destruct (graph_query g t0 q); simpl
         end;
    destruct en; reflexivity.
Qed.

(** The sample sessions are what [initialize] returns. *)
Example session_initialize (g : Graph) (enhanced : bool) :
  initialize Examples.new_URL Examples.parseInt Examples.FalkorDB_connect
    (Examples.configFor g enhanced) []
  = (Returned (Examples.session g enhanced), Examples.opening).
Proof. reflexivity. Qed.

(** ** Refresh without a selected graph *)

(** C3: with no graph selected, refreshSchema throws the
    "No graph selected" error at once, makes no call on the query channel
    or anywhere else, and leaves the cached structured schema and the
    cached rendering as they were. *)
Theorem refreshSchema_needs_selected_graph (this : FalkorDBGraph) (t : Trace) :
  hasSelectedGraph this = false ->
  outcome_of (refreshSchema this t)
    = Threw (JS.ErrorObject "No graph selected. Call selectGraph() first.")
  /\ trace_of (refreshSchema this t) = t
  /\ getStructuredSchema (this_of (refreshSchema this t)) = getStructuredSchema this
  /\ getSchema (this_of (refreshSchema this t)) = getSchema this.
Proof.
  unfold hasSelectedGraph. intros Hsel.
  destruct (graph this) as [g |] eqn:Hg; [discriminate |].
  rewrite (refreshSchema_unselected this t Hg). repeat split.
Qed.

Lemma refreshSchema_needs_selected_graph_witness :
  hasSelectedGraph Examples.bare = false
  /\ outcome_of (refreshSchema Examples.bare [])
     = Threw (JS.ErrorObject "No graph selected. Call selectGraph() first.")
  /\ trace_of (refreshSchema Examples.bare []) = []
  /\ getStructuredSchema (this_of (refreshSchema Examples.bare []))
     = initialStructuredSchema.
Proof.
  split; [reflexivity |].
  destruct (refreshSchema_needs_selected_graph Examples.bare [] eq_refl)
    as (Ho & Ht & Hs & _).
  split; [exact Ho | split; [exact Ht | exact Hs]].
Defined.

(** ** Refresh with failing queries *)

(** C2: with a graph selected, refreshSchema returns normally whichever of
    the three queries throw.  A query that threw counts as one that
    returned no records: its dimension of the structured schema is empty,
    and the dimension of a query that returned is built from its records. *)
Theorem refreshSchema_tolerates_failed_queries
    (this : FalkorDBGraph) (g : Graph) (t : Trace) :
  graph this = Some g ->
  outcome_of (refreshSchema this t) = Returned tt
  /\ nodeProps (getStructuredSchema (this_of (refreshSchema this t)))
     = match nodePropertiesAnswer g t with
       | Threw _ => JS.empty
       | Returned r => nodePropsOf (records r)
       end
  /\ relProps (getStructuredSchema (this_of (refreshSchema this t)))
     = match relPropertiesAnswer g t with
       | Threw _ => JS.empty
       | Returned r => relPropsOf (records r)
       end
  /\ relationships (getStructuredSchema (this_of (refreshSchema this t)))
     = match relAnswer g t with
       | Threw _ => []
       | Returned r => relationshipsOf (records r)
       end.
Proof.
  intros Hg. rewrite (refreshSchema_selected this g t Hg).
  unfold outcome_of, this_of, getStructuredSchema, discovered. simpl.
  split; [reflexivity |].
  destruct (nodePropertiesAnswer g t), (relPropertiesAnswer g t), (relAnswer g t);
    repeat split.
Qed.

Lemma refreshSchema_tolerates_failed_queries_witness :
  outcome_of (refreshSchema (Examples.session Examples.flakyGraph false) Examples.opening)
    = Returned tt
  /\ getStructuredSchema
       (this_of (refreshSchema (Examples.session Examples.flakyGraph false)
                               Examples.opening))
     = mkStructuredSchema
         [("Person", ["name"; "age"])]
         []
         [mkOutput "" "KNOWS" [] "Person" "Person"].
Proof.
  destruct (refreshSchema_tolerates_failed_queries
              (Examples.session Examples.flakyGraph false)
              Examples.flakyGraph Examples.opening eq_refl) as (Ho & Hn & Hr & Hrel).
  split; [exact Ho |].
  destruct (getStructuredSchema _) as [n r rel]. simpl in Hn, Hr, Hrel.
  rewrite Hn, Hr, Hrel. reflexivity.
Defined.

(** C1, as far as the code goes: when a graph is selected and every one of
    the three queries throws, refreshSchema propagates nothing.  It returns
    normally and replaces the cache by the empty structured schema and the
    rendering with three headers and three empty bodies. *)
Theorem refreshSchema_all_queries_failing
    (this : FalkorDBGraph) (g : Graph) (t : Trace) :
  graph this = Some g ->
  failed (nodePropertiesAnswer g t) ->
  failed (relPropertiesAnswer g t) ->
  failed (relAnswer g t) ->
  outcome_of (refreshSchema this t) = Returned tt
  /\ getStructuredSchema (this_of (refreshSchema this t)) = initialStructuredSchema
  /\ getSchema (this_of (refreshSchema this t)) = emptyRendering.
Proof.
  intros Hg H1 H2 H3. rewrite (refreshSchema_selected this g t Hg).
  unfold outcome_of, this_of, getStructuredSchema, getSchema, discovered.
  destruct (nodePropertiesAnswer g t); [destruct H1 |].
  destruct (relPropertiesAnswer g t); [destruct H2 |].
  destruct (relAnswer g t); [destruct H3 |].
  repeat split.
Qed.

Lemma refreshSchema_all_queries_failing_witness :
  getStructuredSchema Examples.refreshedOnce = Examples.personSchema
  /\ getSchema (this_of (refreshSchema Examples.refreshedOnce Examples.refreshedOnceTrace))
     = emptyRendering.
Proof.
  split; [reflexivity |].
  apply (refreshSchema_all_queries_failing
           Examples.refreshedOnce Examples.droppingGraph Examples.refreshedOnceTrace
           eq_refl I I I).
Defined.

(** C1, as stated, fails.  A session refreshes once on a live connection
    and holds the schema of the graph.  The connection is lost; on the
    second refresh every query throws, yet the refresh returns instead of
    throwing, and the schema the object held is gone. *)
Lemma refreshSchema_lost_connection_clears_cache :
  getStructuredSchema Examples.refreshedOnce = Examples.personSchema
  /\ failed (nodePropertiesAnswer Examples.droppingGraph Examples.refreshedOnceTrace)
  /\ failed (relPropertiesAnswer Examples.droppingGraph Examples.refreshedOnceTrace)
  /\ failed (relAnswer Examples.droppingGraph Examples.refreshedOnceTrace)
  /\ outcome_of (refreshSchema Examples.refreshedOnce Examples.refreshedOnceTrace)
     = Returned tt
  /\ getStructuredSchema
       (this_of (refreshSchema Examples.refreshedOnce Examples.refreshedOnceTrace))
     <> getStructuredSchema Examples.refreshedOnce
  /\ getSchema
       (this_of (refreshSchema Examples.refreshedOnce Examples.refreshedOnceTrace))
     <> getSchema Examples.refreshedOnce.
Proof.
  repeat split; vm_compute; discriminate.
Qed.

(** ** Refresh on an empty graph *)

(** C5: when the three queries return and none of them has a record, the
    structured schema has no node properties, no relationship properties
    and no relationships, and the rendering is the three headers, each
    with an empty body. *)
Theorem refreshSchema_empty_graph
    (this : FalkorDBGraph) (g : Graph) (t : Trace) (r1 r2 r3 : QueryResult) :
  graph this = Some g ->
  nodePropertiesAnswer g t = Returned r1 -> records r1 = [] ->
  relPropertiesAnswer g t = Returned r2 -> records r2 = [] ->
  relAnswer g t = Returned r3 -> records r3 = [] ->
  outcome_of (refreshSchema this t) = Returned tt
  /\ nodeProps (getStructuredSchema (this_of (refreshSchema this t))) = JS.empty
  /\ relProps (getStructuredSchema (this_of (refreshSchema this t))) = JS.empty
  /\ relationships (getStructuredSchema (this_of (refreshSchema this t))) = []
  /\ getSchema (this_of (refreshSchema this t)) = emptyRendering.
Proof.
  intros Hg A1 E1 A2 E2 A3 E3. rewrite (refreshSchema_selected this g t Hg).
  unfold outcome_of, this_of, getStructuredSchema, getSchema, discovered.
  rewrite A1, A2, A3. simpl. rewrite E1, E2, E3.
  repeat split.
Qed.

Lemma refreshSchema_empty_graph_witness :
  getStructuredSchema
    (this_of (refreshSchema (Examples.session Examples.emptyGraph false) Examples.opening))
  = initialStructuredSchema
  /\ getSchema
       (this_of (refreshSchema (Examples.session Examples.emptyGraph false)
                               Examples.opening))
     = emptyRendering.
Proof.
  destruct (refreshSchema_empty_graph
              (Examples.session Examples.emptyGraph false)
              Examples.emptyGraph Examples.opening
              (mkQueryResult (Some [])) (mkQueryResult (Some [])) (mkQueryResult (Some []))
              eq_refl eq_refl eq_refl eq_refl eq_refl eq_refl eq_refl)
    as (_ & Hn & Hr & Hrel & Hs).
  split; [| exact Hs].
  destruct (getStructuredSchema _) as [n r rel]. simpl in Hn, Hr, Hrel.
  now rewrite Hn, Hr, Hrel.
Defined.

(** ** What the methods leave alone *)

Lemma query_this (q : string) (this : FalkorDBGraph) (t : Trace) :
  this_of (query q this t) = this.
Proof.
  unfold query, bind, get_this, try_catch, call, throw, this_of.
  destruct (graph this) as [g |]; simpl; [| reflexivity].
  destruct (graph_query g t q); reflexivity.
Qed.

Lemma executeQueries_loop_this (queries : list string) :
  forall (results : list QueryResult) (this : FalkorDBGraph) (t : Trace),
    this_of (executeQueries_loop queries results this t) = this.
Proof.
  induction queries as [| q rest IH]; intros results this t; [reflexivity |].
  simpl. unfold bind, try_catch.
  pose proof (query_this q this t) as Hq. unfold this_of in Hq.
  destruct (query q this t) as [[o this1] t1]. simpl in Hq. subst this1.
  destruct o as [r | e]; [apply IH | reflexivity].
Qed.

Lemma executeQueries_this (queries : list string) (this : FalkorDBGraph) (t : Trace) :
  this_of (executeQueries queries this t) = this.
Proof.
  unfold executeQueries, bind, get_this.
  destruct (graph this); [apply executeQueries_loop_this | reflexivity].
Qed.

Lemma clearGraph_this (this : FalkorDBGraph) (t : Trace) :
  this_of (clearGraph this t) = this.
Proof.
  unfold clearGraph, bind, get_this, try_catch.
  destruct (graph this) as [g |] eqn:Hg; [| reflexivity].
  pose proof (query_this "MATCH (n) DETACH DELETE n" this t) as Hq.
  unfold this_of in Hq.
  destruct (query _ this t) as [[o this1] t1]. simpl in Hq. subst this1.
  destruct o; reflexivity.
Qed.

Lemma verifyConnectivity_this (this : FalkorDBGraph) (t : Trace) :
  this_of (verifyConnectivity this t) = this.
Proof.
  unfold verifyConnectivity, bind, get_this, try_catch, call, throw, this_of.
  destruct (driver this) as [d |]; simpl; [| reflexivity].
  destruct (driver_info d t); reflexivity.
Qed.

Lemma close_this (this : FalkorDBGraph) (t : Trace) :
  this_of (close this t) = this.
Proof.
  unfold close, bind, get_this, try_catch, call, ret, this_of.
  destruct (driver this) as [d |]; simpl; [| reflexivity].
  destruct (isExternalDriver this); simpl; [reflexivity |].
  destruct (driver_close d t); reflexivity.
Qed.

Lemma selectGraph_this (graphName : string) (this : FalkorDBGraph) (t : Trace) :
  this_of (selectGraph graphName this t) = this
  \/ exists g, this_of (selectGraph graphName this t) = with_graph g this.
Proof.
  unfold selectGraph, bind, get_this, try_catch, call, assign, throw, this_of.
  destruct (driver this) as [d |]; simpl; [| now left].
  destruct (driver_selectGraph d t graphName) as [g | e]; simpl.
  - right. now exists g.
  - now left.
Qed.

Lemma refreshSchema_this (this : FalkorDBGraph) (t : Trace) :
  this_of (refreshSchema this t) = this
  \/ exists s,
       this_of (refreshSchema this t)
       = with_schema (formatSchema (with_structuredSchema s this))
           (with_structuredSchema s this).
Proof.
  destruct (graph this) as [g |] eqn:Hg.
  - right. exists (discovered g t). now rewrite (refreshSchema_selected this g t Hg).
  - left. now rewrite (refreshSchema_unselected this t Hg).
Qed.

(** No method touches the driver or the mark that tells whose it is. *)
Lemma perform_driver (c : Call) (this : FalkorDBGraph) (t : Trace) :
  driver (fst (perform c this t)) = driver this
  /\ isExternalDriver (fst (perform c this t)) = isExternalDriver this.
Proof.
  destruct c; simpl.
  - destruct (selectGraph_this graphName this t) as [-> | [g ->]]; now split.
  - now rewrite query_this.
  - now rewrite verifyConnectivity_this.
  - destruct (refreshSchema_this this t) as [-> | [s ->]]; now split.
  - now rewrite close_this.
  - now rewrite executeQueries_this.
  - now rewrite clearGraph_this.
  - now split.
Qed.

(** Once the cached rendering is the formatter's output on the cached
    structured schema, it stays so. *)
Lemma perform_rendering (c : Call) (this : FalkorDBGraph) (t : Trace) :
  schema this = formatSchema this ->
  schema (fst (perform c this t)) = formatSchema (fst (perform c this t)).
Proof.
  intros H. destruct c; simpl.
  - destruct (selectGraph_this graphName this t) as [-> | [g ->]]; exact H.
  - now rewrite query_this.
  - now rewrite verifyConnectivity_this.
  - destruct (refreshSchema_this this t) as [-> | [s ->]]; [exact H | reflexivity].
  - now rewrite close_this.
  - now rewrite executeQueries_this.
  - now rewrite clearGraph_this.
  - exact H.
Qed.

Lemma Refreshed_rendering (this : FalkorDBGraph) :
  Refreshed this -> schema this = formatSchema this.
Proof.
  induction 1 as [this t this' t' Hr | this c t _ IH _].
  - destruct (graph this) as [g |] eqn:Hg.
    + rewrite (refreshSchema_selected this g t Hg) in Hr.
      injection Hr as <- _. reflexivity.
    + rewrite (refreshSchema_unselected this t Hg) in Hr. discriminate.
  - now apply perform_rendering.
Qed.

(** ** The structured schema and the raw records *)

Lemma nodePropsOf_In (rows : list Row) (l : string) (ps : list string) :
  In (l, ps) (JS.entries (nodePropsOf rows)) ->
  exists el, In el rows /\ label (output el) = l /\ properties (output el) = ps.
Proof.
  intros Hin. apply (proj1 (JSFacts.entries_In _ _)) in Hin.
  apply JSFacts.fromEntries_In in Hin. apply in_map_iff in Hin.
  destruct Hin as (el & Heq & Hel). injection Heq as Hl Hp. now exists el.
Qed.

Lemma relPropsOf_In (rows : list Row) (ty : string) (ps : list string) :
  In (ty, ps) (JS.entries (relPropsOf rows)) ->
  exists el, In el rows /\ type (output el) = ty /\ properties (output el) = ps.
Proof.
  intros Hin. apply (proj1 (JSFacts.entries_In _ _)) in Hin.
  apply JSFacts.fromEntries_In in Hin. apply in_map_iff in Hin.
  destruct Hin as (el & Heq & Hel). injection Heq as Hl Hp. now exists el.
Qed.

(** C4, as far as the code goes: refreshSchema removes no duplicate
    itself.  Labels and relationship types occur once each, being keys of
    an object; every property list is the list of one raw record, as it
    came, and the relationships are the raw records in their order.  So
    the structured schema is free of duplicates when the raw records
    are. *)
Theorem refreshSchema_keeps_records_as_they_come
    (this : FalkorDBGraph) (g : Graph) (t : Trace) :
  graph this = Some g ->
  NoDup (JS.keys (nodeProps (getStructuredSchema (this_of (refreshSchema this t)))))
  /\ NoDup (JS.keys (relProps (getStructuredSchema (this_of (refreshSchema this t)))))
  /\ (forall l ps,
        In (l, ps)
           (JS.entries (nodeProps (getStructuredSchema (this_of (refreshSchema this t))))) ->
        exists el, In el (contributed (nodePropertiesAnswer g t))
                   /\ label (output el) = l /\ properties (output el) = ps)
  /\ (forall ty ps,
        In (ty, ps)
           (JS.entries (relProps (getStructuredSchema (this_of (refreshSchema this t))))) ->
        exists el, In el (contributed (relPropertiesAnswer g t))
                   /\ type (output el) = ty /\ properties (output el) = ps)
  /\ relationships (getStructuredSchema (this_of (refreshSchema this t)))
     = map output (contributed (relAnswer g t))
  /\ ((forall el, In el (contributed (nodePropertiesAnswer g t)) ->
                  NoDup (properties (output el))) ->
      (forall el, In el (contributed (relPropertiesAnswer g t)) ->
                  NoDup (properties (output el))) ->
      NoDup (map (fun el => triple (output el)) (contributed (relAnswer g t))) ->
      duplicate_free (getStructuredSchema (this_of (refreshSchema this t)))).
Proof.
  intros Hg. rewrite (refreshSchema_selected this g t Hg).
  unfold this_of, getStructuredSchema, discovered. simpl.
  split; [apply JSFacts.keys_NoDup, JSFacts.fromEntries_NoDup |].
  split; [apply JSFacts.keys_NoDup, JSFacts.fromEntries_NoDup |].
  split; [intros l ps; apply nodePropsOf_In |].
  split; [intros ty ps; apply relPropsOf_In |].
  split; [reflexivity |].
  intros Hn Hr Hrel. unfold duplicate_free. simpl.
  split; [| split].
  - intros l ps Hin. apply nodePropsOf_In in Hin.
    destruct Hin as (el & Hel & _ & <-). now apply Hn.
  - intros ty ps Hin. apply relPropsOf_In in Hin.
    destruct Hin as (el & Hel & _ & <-). now apply Hr.
  - unfold relationshipsOf. rewrite map_map. exact Hrel.
Qed.

Lemma refreshSchema_keeps_records_as_they_come_witness :
  duplicate_free
    (getStructuredSchema
       (this_of (refreshSchema (Examples.session Examples.socialGraph false) Examples.opening))).
Proof.
  apply (refreshSchema_keeps_records_as_they_come
           (Examples.session Examples.socialGraph false)
           Examples.socialGraph Examples.opening eq_refl).
  - intros el [<- | []]. simpl.
    repeat constructor; simpl; intuition discriminate.
  - intros el [<- | []]. simpl.
    repeat constructor; simpl; intuition discriminate.
  - simpl. repeat constructor; simpl; intuition discriminate.
Defined.

(** C4, as stated, fails: when the records of the backend repeat a
    property name or a triple, so does the structured schema. *)
Lemma refreshSchema_keeps_duplicates :
  ~ duplicate_free
      (getStructuredSchema
         (this_of (refreshSchema (Examples.session Examples.repeatingGraph false) Examples.opening))).
Proof.
  intros (Hn & _ & _).
  specialize (Hn "Person" ["name"; "name"] (or_introl eq_refl)).
  inversion Hn as [| x l Hnot _]. apply Hnot. now left.
Qed.

(** ** The layout of the rendering *)

Lemma join_newline (ls : list string) : JS.join JS.newline ls = lines ls.
Proof.
  induction ls as [| l rest IH]; [reflexivity |].
  simpl. destruct rest; [reflexivity |]. now rewrite IH.
Qed.

Lemma join_comma (names : list string) : JS.join ", " names = comma_separated names.
Proof.
  induction names as [| n rest IH]; [reflexivity |].
  simpl. destruct rest; [reflexivity |]. now rewrite IH.
Qed.

Lemma formatProps_line (e : string * list string) : formatProps e = properties_line e.
Proof. unfold formatProps, properties_line. now rewrite join_comma. Qed.

(** The rendering line by line. *)

Lemma split_lines_cons (s : string) : exists l ls, split_lines s = l :: ls.
Proof.
  induction s as [| c rest (l & ls & IH)]; simpl; [now exists "", [] |].
  destruct (Ascii.eqb c (ascii_of_nat 10)); [now exists "", (split_lines rest) |].
  rewrite IH. now exists (String c l), ls.
Qed.

Lemma split_lines_app (a b : string) :
  split_lines (a ++ JS.newline ++ b) = split_lines a ++ split_lines b.
Proof.
  induction a as [| c rest IH]; [reflexivity |].
  simpl. destruct (Ascii.eqb c (ascii_of_nat 10)).
  - simpl. now rewrite <- IH.
  - simpl in IH. rewrite IH.
    destruct (split_lines_cons rest) as (l & ls & ->). reflexivity.
Qed.

Lemma split_lines_one_line (s : string) :
  one_line s = true -> split_lines s = [s].
Proof.
  induction s as [| c rest IH]; simpl; [reflexivity |].
  destruct (Ascii.eqb c (ascii_of_nat 10)); simpl; [discriminate |].
  intros H. now rewrite (IH H).
Qed.

Lemma one_line_app (a b : string) :
  one_line (a ++ b) = one_line a && one_line b.
Proof.
  induction a as [| c rest IH]; simpl; [reflexivity |].
  rewrite IH. now rewrite andb_assoc.
Qed.

Lemma split_lines_lines (ls : list string) :
  Forall (fun l => one_line l = true) ls ->
  split_lines (lines ls) = body_lines ls.
Proof.
  induction 1 as [| l rest Hl Hrest IH]; [reflexivity |].
  destruct rest as [| l' rest'].
  - simpl. now apply split_lines_one_line.
  - change (lines (l :: l' :: rest'))
      with (l ++ JS.newline ++ lines (l' :: rest'))%string.
    rewrite split_lines_app, IH, (split_lines_one_line l Hl). reflexivity.
Qed.

Lemma one_line_comma_separated (names : list string) :
  Forall (fun p => one_line p = true) names ->
  one_line (comma_separated names) = true.
Proof.
  induction 1 as [| n rest Hn Hrest IH]; [reflexivity |].
  destruct rest as [| n' rest']; [exact Hn |].
  change (comma_separated (n :: n' :: rest'))
    with (n ++ ", " ++ comma_separated (n' :: rest'))%string.
  rewrite !one_line_app, Hn, IH. reflexivity.
Qed.

Lemma one_line_properties_line (e : string * list string) :
  one_line (fst e) = true ->
  Forall (fun p => one_line p = true) (snd e) ->
  one_line (properties_line e) = true.
Proof.
  intros Hl Hps. unfold properties_line.
  rewrite !one_line_app, Hl, (one_line_comma_separated _ Hps). reflexivity.
Qed.

Lemma one_line_triple_line (o : Output) :
  one_line (start o) = true -> one_line (type o) = true -> one_line (end_ o) = true ->
  one_line (triple_line o) = true.
Proof.
  intros Hs Ht He. unfold triple_line.
  rewrite !one_line_app, Hs, Ht, He. reflexivity.
Qed.

(** C6: the rendering is the header of the node properties, one line
    [label: {prop1, prop2, ...}] for each entry of [nodeProps], the header
    of the relationship properties, one such line for each entry of
    [relProps], the header of the relationships and one line
    [(:start) -[:type]-> (:end)] for each relationship, all separated by
    line feeds, the entries in the order [Object.entries] and the list give
    them.  Read line by line, when no name has a line feed in it: a
    header, the lines of its entries, the next header, and so on, a section
    without entries taking one empty line. *)
Theorem formatSchema_layout (this : FalkorDBGraph) :
  formatSchema this = rendering (getStructuredSchema this)
  /\ (names_on_one_line (getStructuredSchema this) ->
      split_lines (formatSchema this)
      = "Node properties are the following:"
        :: body_lines (map properties_line
                         (JS.entries (nodeProps (getStructuredSchema this))))
        ++ "Relationship properties are the following:"
        :: body_lines (map properties_line
                         (JS.entries (relProps (getStructuredSchema this))))
        ++ "The relationships are the following:"
        :: body_lines (map triple_line (relationships (getStructuredSchema this)))).
Proof.
  assert (Hlayout : formatSchema this = rendering (getStructuredSchema this)).
  { unfold formatSchema, rendering, getStructuredSchema.
    destruct (structuredSchema this) as [n r rel].
    simpl nodeProps. simpl relProps. simpl relationships.
    rewrite !join_newline.
    rewrite !(map_ext formatProps properties_line formatProps_line).
    reflexivity. }
  split; [exact Hlayout |].
  intros (Hn & Hr & Hrel). rewrite Hlayout. unfold rendering.
  rewrite !split_lines_app.
  rewrite !split_lines_lines.
  - reflexivity.
  - apply Forall_map. eapply Forall_impl; [| exact Hrel].
    intros o (Hs & Ht & He). now apply one_line_triple_line.
  - apply Forall_map. eapply Forall_impl; [| exact Hr].
    intros e (Hl & Hps). now apply one_line_properties_line.
  - apply Forall_map. eapply Forall_impl; [| exact Hn].
    intros e (Hl & Hps). now apply one_line_properties_line.
Qed.

Lemma formatSchema_layout_witness :
  names_on_one_line Examples.personSchema
  /\ split_lines
       (formatSchema
          (this_of (refreshSchema (Examples.session Examples.socialGraph false)
                                  Examples.opening)))
     = [ "Node properties are the following:";
         "Person: {name, age}";
         "Relationship properties are the following:";
         "KNOWS: {since}";
         "The relationships are the following:";
         "(:Person) -[:KNOWS]-> (:Person)" ].
Proof.
  assert (H : names_on_one_line Examples.personSchema).
  { unfold names_on_one_line. simpl. repeat constructor. }
  split; [exact H |].
  exact (proj2 (formatSchema_layout
                  (this_of (refreshSchema (Examples.session Examples.socialGraph false)
                                          Examples.opening)))
               H).
Defined.

(** ** Refreshing twice *)

Lemma refreshSchema_graph (this : FalkorDBGraph) (g : Graph) (t : Trace) :
  graph this = Some g -> graph (this_of (refreshSchema this t)) = Some g.
Proof.
  intros Hg. now rewrite (refreshSchema_selected this g t Hg).
Qed.

(** C7: the structured schema a refresh caches is made of the answers of
    the three queries and of nothing else, whatever the cache held before;
    so a second refresh, to which the graph answers as it did to the
    first, caches the same structured schema and the same rendering. *)
Theorem refreshSchema_idempotent (this : FalkorDBGraph) (g : Graph) (t : Trace) :
  graph this = Some g ->
  (forall other t',
      graph other = Some g ->
      nodePropertiesAnswer g t' = nodePropertiesAnswer g t ->
      relPropertiesAnswer g t' = relPropertiesAnswer g t ->
      relAnswer g t' = relAnswer g t ->
      getStructuredSchema (this_of (refreshSchema other t'))
      = getStructuredSchema (this_of (refreshSchema this t)))
  /\ (nodePropertiesAnswer g (trace_of (refreshSchema this t)) = nodePropertiesAnswer g t ->
      relPropertiesAnswer g (trace_of (refreshSchema this t)) = relPropertiesAnswer g t ->
      relAnswer g (trace_of (refreshSchema this t)) = relAnswer g t ->
      getStructuredSchema
        (this_of (refreshSchema (this_of (refreshSchema this t))
                                (trace_of (refreshSchema this t))))
      = getStructuredSchema (this_of (refreshSchema this t))
      /\ getSchema
           (this_of (refreshSchema (this_of (refreshSchema this t))
                                   (trace_of (refreshSchema this t))))
         = getSchema (this_of (refreshSchema this t))).
Proof.
  intros Hg.
  assert (Hany : forall other t',
             graph other = Some g ->
             nodePropertiesAnswer g t' = nodePropertiesAnswer g t ->
             relPropertiesAnswer g t' = relPropertiesAnswer g t ->
             relAnswer g t' = relAnswer g t ->
             structuredSchema (this_of (refreshSchema other t')) = discovered g t
             /\ schema (this_of (refreshSchema other t'))
                = formatSchema (with_structuredSchema (discovered g t) other)).
  { intros other t' Ho H1 H2 H3.
    rewrite (refreshSchema_selected other g t' Ho).
    unfold this_of, discovered. simpl. rewrite H1, H2, H3. now split. }
  assert (Hfirst : structuredSchema (this_of (refreshSchema this t)) = discovered g t
                   /\ schema (this_of (refreshSchema this t))
                      = formatSchema (with_structuredSchema (discovered g t) this)).
  { now apply Hany. }
  destruct Hfirst as [Hs Hr].
  unfold getStructuredSchema, getSchema. split.
  - intros other t' Ho H1 H2 H3.
    destruct (Hany other t' Ho H1 H2 H3) as [-> _]. now rewrite Hs.
  - intros H1 H2 H3.
    destruct (Hany _ _ (refreshSchema_graph this g t Hg) H1 H2 H3) as [-> ->].
    rewrite Hs, Hr. split; reflexivity.
Qed.

Lemma refreshSchema_idempotent_witness :
  getStructuredSchema
    (this_of (refreshSchema
                (this_of (refreshSchema (Examples.session Examples.socialGraph false) Examples.opening))
                (trace_of (refreshSchema (Examples.session Examples.socialGraph false) Examples.opening))))
  = getStructuredSchema
      (this_of (refreshSchema (Examples.session Examples.socialGraph false) Examples.opening)).
Proof.
  apply (proj2 (refreshSchema_idempotent
                  (Examples.session Examples.socialGraph false)
                  Examples.socialGraph Examples.opening eq_refl)
               eq_refl eq_refl eq_refl).
Defined.

(** ** The formatter and the cached rendering *)

(** C8, as stated, fails before the first refresh: the object
    [initialize] returns and the same object after a refresh of its empty
    graph hold equal structured schemas, and [getSchema] returns the empty
    string on the first and the three headers on the second. *)
Lemma getSchema_before_first_refresh :
  initialize Examples.new_URL Examples.parseInt Examples.FalkorDB_connect
    (Examples.configFor Examples.emptyGraph false) []
  = (Returned (Examples.session Examples.emptyGraph false), Examples.opening)
  /\ getStructuredSchema (Examples.session Examples.emptyGraph false)
     = getStructuredSchema
         (this_of (refreshSchema (Examples.session Examples.emptyGraph false)
                                 Examples.opening))
  /\ getSchema (Examples.session Examples.emptyGraph false) = ""
  /\ getSchema
       (this_of (refreshSchema (Examples.session Examples.emptyGraph false)
                               Examples.opening))
     = emptyRendering
  /\ getSchema (Examples.session Examples.emptyGraph false)
     <> getSchema
          (this_of (refreshSchema (Examples.session Examples.emptyGraph false)
                                  Examples.opening)).
Proof.
  repeat split; vm_compute; discriminate.
Qed.

(** ** The enhanced mode *)

(** C9: a refresh of an object with the enhanced mode on and a refresh of
    an object that differs from it in the mode alone end alike: same
    outcome, same cached structured schema, same cached rendering.  The
    enhanced pass writes one line to the console and leaves the object as
    it was. *)
Theorem enhancedSchema_changes_no_cached_state :
  (forall (this : FalkorDBGraph) (t : Trace),
      enhanceSchemaDetails this t
      = (Returned tt, this,
         t ++ [console_log "Enhanced schema details not yet implemented for FalkorDB."]))
  /\ (forall (on off : FalkorDBGraph) (t : Trace),
        enhancedSchema on = true ->
        enhancedSchema off = false ->
        graph on = graph off ->
        structuredSchema on = structuredSchema off ->
        schema on = schema off ->
        outcome_of (refreshSchema on t) = outcome_of (refreshSchema off t)
        /\ getStructuredSchema (this_of (refreshSchema on t))
           = getStructuredSchema (this_of (refreshSchema off t))
        /\ getSchema (this_of (refreshSchema on t))
           = getSchema (this_of (refreshSchema off t))).
Proof.
  split; [reflexivity |].
  intros on off t _ _ Hg Hs Hr.
  destruct (graph off) as [g |] eqn:Hoff.
  - rewrite (refreshSchema_selected on g t Hg), (refreshSchema_selected off g t Hoff).
    repeat split.
  - rewrite (refreshSchema_unselected on t Hg), (refreshSchema_unselected off t Hoff).
    unfold outcome_of, this_of, getStructuredSchema, getSchema. simpl.
    repeat split; assumption.
Qed.

Lemma enhancedSchema_changes_no_cached_state_witness :
  getStructuredSchema
    (this_of (refreshSchema (Examples.session Examples.socialGraph true) Examples.opening))
  = getStructuredSchema
      (this_of (refreshSchema (Examples.session Examples.socialGraph false) Examples.opening))
  /\ getSchema
       (this_of (refreshSchema (Examples.session Examples.socialGraph true) Examples.opening))
     = getSchema
         (this_of (refreshSchema (Examples.session Examples.socialGraph false) Examples.opening)).
Proof.
  destruct (proj2 enhancedSchema_changes_no_cached_state
              (Examples.session Examples.socialGraph true)
              (Examples.session Examples.socialGraph false)
              Examples.opening eq_refl eq_refl eq_refl eq_refl eq_refl) as (_ & Hs & Hr).
  split; [exact Hs | exact Hr].
Defined.

(** ** Whose driver it is *)

Section Ownership.

Variable new_URL : string -> option JS.URL.
Variable parseInt : string -> Z -> Z.
Variable FalkorDB_connect : Trace -> DriverOptions -> Outcome FalkorDB.

Lemma constructor_fields (config : FalkorDBGraphConfig) :
  driver (constructor new_URL parseInt config) = None
  /\ graph (constructor new_URL parseInt config) = None
  /\ schema (constructor new_URL parseInt config) = ""
  /\ structuredSchema (constructor new_URL parseInt config) = initialStructuredSchema
  /\ isExternalDriver (constructor new_URL parseInt config)
     = match config_driver config with Some _ => true | None => false end.
Proof.
  unfold constructor.
  destruct (match config_driver config with
            | Some _ => _
            | None => _
            end) as [h p].
  repeat split.
Qed.

Lemma initialize_returns (config : FalkorDBGraphConfig) (t : Trace)
    (this : FalkorDBGraph) (t' : Trace) :
  initialize new_URL parseInt FalkorDB_connect config t = (Returned this, t') ->
  isExternalDriver this
  = match config_driver config with Some _ => true | None => false end
  /\ exists d, driver this = Some d
               /\ driver_origin new_URL parseInt FalkorDB_connect config d.
Proof.
  unfold initialize, driver_origin.
  destruct (constructor_fields config) as (_ & _ & _ & _ & Hext).
  set (this0 := constructor new_URL parseInt config) in *.
  set (opts := driverOptions_of config this0).
  match goal with
  | |- context [bind verifyConnectivity ?k] =>
      set (rest := bind verifyConnectivity k)
  end.
  assert (Hrest : forall (d : FalkorDB) (t1 : Trace) (this' : FalkorDBGraph) (t2 : Trace),
             rest (with_driver d this0) t1 = (Returned tt, this', t2) ->
             isExternalDriver this' = isExternalDriver this0
             /\ driver this' = Some d).
  { intros d t1 this' t2. unfold rest, bind.
    pose proof (verifyConnectivity_this (with_driver d this0) t1) as Hv.
    unfold this_of in Hv.
    destruct (verifyConnectivity (with_driver d this0) t1) as [[o this1] t1'].
    simpl in Hv. subst this1.
    destruct o as [[] | e]; [| discriminate].
    destruct (JS.truthy (config_graph config)) as [graphName |].
    - pose proof (selectGraph_this graphName (with_driver d this0) t1') as Hs.
      unfold this_of in Hs.
      destruct (selectGraph graphName (with_driver d this0) t1') as [[o this2] t2'].
      simpl in Hs. intros Heq. injection Heq as _ <- _.
      destruct Hs as [-> | [g ->]]; now split.
    - unfold ret. intros Heq. injection Heq as <- _. now split. }
  clearbody rest.
  destruct (config_driver config) as [given |] eqn:Hcfg.
  - unfold bind, assign.
    destruct (rest (with_driver given this0) t) as [[o this'] t2] eqn:Hrun.
    destruct o as [[] | e]; intros Heq; [| discriminate].
    injection Heq as <- _.
    destruct (Hrest given t this' t2 Hrun) as [Hi Hd].
    split; [congruence | now exists given].
  - unfold bind, call, assign.
    destruct (FalkorDB_connect t opts) as [d | e] eqn:Hconn;
      [| intros Heq; discriminate].
    destruct (rest (with_driver d this0) (t ++ [FalkorDB_connect_call opts]))
      as [[o this'] t2] eqn:Hrun.
    destruct o as [[] | e]; intros Heq; [| discriminate].
    injection Heq as <- _.
    destruct (Hrest d _ this' t2 Hrun) as [Hi Hd].
    split; [congruence |]. exists d. split; [exact Hd | now exists t].
Qed.

(** The mark and the driver of every object a program can hold. *)
Lemma Constructed_driver (config : FalkorDBGraphConfig) (this : FalkorDBGraph) :
  Constructed new_URL parseInt FalkorDB_connect config this ->
  isExternalDriver this
  = match config_driver config with Some _ => true | None => false end
  /\ (forall d, driver this = Some d ->
                driver_origin new_URL parseInt FalkorDB_connect config d).
Proof.
  induction 1 as [| t this t' Hinit | this c t _ IH].
  - destruct (constructor_fields config) as (Hd & _ & _ & _ & Hext).
    split; [exact Hext |]. intros d Hsome. rewrite Hd in Hsome. discriminate.
  - destruct (initialize_returns config t this t' Hinit) as (Hext & d & Hd & Ho).
    split; [exact Hext |]. intros d' Hsome. rewrite Hd in Hsome.
    injection Hsome as <-. exact Ho.
  - destruct (perform_driver c this t) as [-> ->]. exact IH.
Qed.

(** C10: [close] returns normally on every object a program can hold
    and leaves the object as it was.  When the configuration supplied
    the driver, [close] makes no call at all, so none on the driver,
    which stays as usable as it was.  When it did not, and the object
    has a driver, that driver came from [FalkorDB.connect]; [close]
    calls its close operation once, and if that throws, the error ends
    as a warning on the console. *)
Theorem close_spares_external_driver
    (config : FalkorDBGraphConfig) (this : FalkorDBGraph) (t : Trace) :
  Constructed new_URL parseInt FalkorDB_connect config this ->
  outcome_of (close this t) = Returned tt
  /\ this_of (close this t) = this
  /\ match config_driver config with
     | Some given => trace_of (close this t) = t
     | None =>
         match driver this with
         | None => trace_of (close this t) = t
         | Some d =>
             driver_origin new_URL parseInt FalkorDB_connect config d
             /\ trace_of (close this t)
                = (t ++ [driver_close_call (driver_id d)])
                  ++ match driver_close d t with
                     | Returned _ => []
                     | Threw error =>
                         [console_warn
                            ("Warning: Error closing FalkorDB connection: "
                             ++ JS.errorMessage error)]
                     end
         end
     end.
Proof.
  intros Hc. destruct (Constructed_driver config this Hc) as [Hext Horigin].
  split; [| split; [apply close_this |]].
  - unfold close, bind, get_this, try_catch, call, ret, outcome_of.
    destruct (driver this) as [d |]; simpl; [| reflexivity].
    destruct (isExternalDriver this); simpl; [reflexivity |].
    destruct (driver_close d t) as [[] | e]; reflexivity.
  - unfold close, bind, get_this, try_catch, call, ret, trace_of.
    destruct (config_driver config) as [given |].
    + rewrite Hext. destruct (driver this); reflexivity.
    + rewrite Hext. destruct (driver this) as [d |]; [| reflexivity].
      split; [now apply Horigin |]. simpl.
      destruct (driver_close d t) as [[] | e]; simpl;
        [now rewrite app_nil_r | reflexivity].
Qed.

End Ownership.

Lemma close_spares_external_driver_witness :
  Constructed Examples.new_URL Examples.parseInt Examples.FalkorDB_connect
    (Examples.configFor Examples.socialGraph false)
    (Examples.session Examples.socialGraph false)
  /\ outcome_of (close (Examples.session Examples.socialGraph false) Examples.opening)
     = Returned tt
  /\ trace_of (close (Examples.session Examples.socialGraph false) Examples.opening)
     = Examples.opening.
Proof.
  assert (Hc : Constructed Examples.new_URL Examples.parseInt Examples.FalkorDB_connect
                 (Examples.configFor Examples.socialGraph false)
                 (Examples.session Examples.socialGraph false)).
  { exact (constructed_initialize Examples.new_URL Examples.parseInt
             Examples.FalkorDB_connect (Examples.configFor Examples.socialGraph false)
             [] (Examples.session Examples.socialGraph false) _ eq_refl). }
  split; [exact Hc |].
  destruct (close_spares_external_driver Examples.new_URL Examples.parseInt
              Examples.FalkorDB_connect (Examples.configFor Examples.socialGraph false)
              (Examples.session Examples.socialGraph false)
              Examples.opening Hc) as (Ho & _ & Ht).
  split; [exact Ho | exact Ht].
Defined.

(** A driver the object made itself is closed, and a throw of its close
    operation becomes a warning. *)
Example close_owned_driver :
  initialize Examples.new_URL Examples.parseInt Examples.FalkorDB_connect
    Examples.ownConfig []
  = (Returned Examples.owned,
     [FalkorDB_connect_call
        (mkDriverOptions None (Some ("localhost", 6379%Z)) None None);
      driver_info_call 8;
      driver_selectGraph_call 8 "own"])
  /\ close Examples.owned []
     = (Returned tt, Examples.owned,
        [driver_close_call 8;
         console_warn "Warning: Error closing FalkorDB connection: Socket already closed"]).
Proof. split; reflexivity. Qed.

(** * The rest of the class *)

(** ** query, clearGraph and executeQueries *)

Lemma query_selected (q : string) (this : FalkorDBGraph) (g : Graph) (t : Trace) :
  graph this = Some g ->
  query q this t
  = (match graph_query g t q with
     | Returned r => Returned r
     | Threw e =>
         Threw (JS.ErrorObject ("Query execution failed: " ++ JS.errorMessage e))
     end,
     this, t ++ [graph_query_call (graph_id g) q]).
Proof.
  intros Hg. unfold query, bind, get_this, try_catch, call, throw.
  rewrite Hg. now destruct (graph_query g t q).
Qed.

(** X1: on an object without a selected graph, [query], [executeQueries]
    and [clearGraph] throw the "No graph selected" error as it is, without
    the wrapping their [catch] blocks add, make no call and leave the object
    alone. *)
Theorem guarded_methods_need_selected_graph
    (this : FalkorDBGraph) (t : Trace) (q : string) (queries : list string) :
  hasSelectedGraph this = false ->
  query q this t = (Threw noGraphSelected, this, t)
  /\ executeQueries queries this t = (Threw noGraphSelected, this, t)
  /\ clearGraph this t = (Threw noGraphSelected, this, t).
Proof.
  unfold hasSelectedGraph. intros Hsel.
  destruct (graph this) as [g |] eqn:Hg; [discriminate |].
  unfold query, executeQueries, clearGraph, bind, get_this. rewrite Hg.
  repeat split.
Qed.

Lemma guarded_methods_need_selected_graph_witness :
  executeQueries ["RETURN 1"; "RETURN 2"] Examples.bare []
  = (Threw noGraphSelected, Examples.bare, []).
Proof.
  exact (proj1 (proj2 (guarded_methods_need_selected_graph
                         Examples.bare [] "RETURN 1" ["RETURN 1"; "RETURN 2"] eq_refl))).
Defined.

(** X2: with a graph selected, [query] passes the text to the graph handle
    once and returns what the handle returns; when the handle throws, the
    caller gets an [Error] whose message is "Query execution failed: "
    followed by the message of what was thrown.  The object is not
    touched. *)
Theorem query_forwards_to_graph
    (q : string) (this : FalkorDBGraph) (g : Graph) (t : Trace) :
  graph this = Some g ->
  this_of (query q this t) = this
  /\ trace_of (query q this t) = t ++ [graph_query_call (graph_id g) q]
  /\ (forall r, graph_query g t q = Returned r ->
                outcome_of (query q this t) = Returned r)
  /\ (forall e, graph_query g t q = Threw e ->
                outcome_of (query q this t)
                = Threw (JS.ErrorObject
                           ("Query execution failed: " ++ JS.errorMessage e))).
Proof.
  intros Hg. rewrite (query_selected q this g t Hg).
  unfold this_of, trace_of, outcome_of. simpl.
  repeat split; intros x Hx; now rewrite Hx.
Qed.

Lemma query_forwards_to_graph_witness :
  outcome_of (query relQuery (Examples.session Examples.socialGraph false)
                    Examples.opening)
  = Returned (mkQueryResult (Some [Examples.relRow "Person" "KNOWS" "Person"]))
  /\ outcome_of (query relPropertiesQuery (Examples.session Examples.flakyGraph false)
                       Examples.opening)
     = Threw (JS.ErrorObject "Query execution failed: Query timed out").
Proof.
  split.
  - exact (proj1 (proj2 (proj2 (query_forwards_to_graph
                                  relQuery (Examples.session Examples.socialGraph false)
                                  Examples.socialGraph Examples.opening eq_refl)))
                 _ eq_refl).
  - exact (proj2 (proj2 (proj2 (query_forwards_to_graph
                                  relPropertiesQuery
                                  (Examples.session Examples.flakyGraph false)
                                  Examples.flakyGraph Examples.opening eq_refl)))
                 _ eq_refl).
Defined.

(** X3: with a graph selected, [clearGraph] sends the one statement
    [MATCH (n) DETACH DELETE n] and returns nothing; a failure of the
    handle reaches the caller wrapped twice, as "Failed to clear graph:
    Query execution failed: " and the message. *)
Theorem clearGraph_sends_one_delete (this : FalkorDBGraph) (g : Graph) (t : Trace) :
  graph this = Some g ->
  clearGraph this t
  = (match graph_query g t "MATCH (n) DETACH DELETE n" with
     | Returned _ => Returned tt
     | Threw e =>
         Threw (JS.ErrorObject
                  ("Failed to clear graph: Query execution failed: "
                   ++ JS.errorMessage e))
     end,
     this, t ++ [graph_query_call (graph_id g) "MATCH (n) DETACH DELETE n"]).
Proof.
  intros Hg. unfold clearGraph, bind, get_this, try_catch. rewrite Hg.
  rewrite (query_selected _ this g t Hg).
  now destruct (graph_query g t "MATCH (n) DETACH DELETE n").
Qed.

Lemma clearGraph_sends_one_delete_witness :
  clearGraph Examples.refreshedOnce Examples.refreshedOnceTrace
  = (Threw (JS.ErrorObject
              "Failed to clear graph: Query execution failed: Connection is closed."),
     Examples.refreshedOnce,
     Examples.refreshedOnceTrace
     ++ [graph_query_call 1 "MATCH (n) DETACH DELETE n"]).
Proof.
  exact (clearGraph_sends_one_delete Examples.refreshedOnce Examples.droppingGraph
           Examples.refreshedOnceTrace eq_refl).
Defined.

Lemma answers_app (g : Graph) (done : list string) :
  forall (t : Trace) (rest : list string),
    answers g t (done ++ rest)
    = answers g t done ++ answers g (t ++ query_calls g done) rest.
Proof.
  induction done as [| q done IH]; intros t rest; simpl.
  - now rewrite app_nil_r.
  - rewrite IH. unfold query_calls. simpl. now rewrite <- app_assoc.
Qed.

(** The loop of [executeQueries], with the results gathered so far. *)
Lemma executeQueries_loop_spec (g : Graph) (queries : list string) :
  forall (results : list QueryResult) (this : FalkorDBGraph) (t : Trace),
    graph this = Some g ->
    match executeQueries_loop queries results this t with
    | (Returned rs, this', t') =>
        this' = this
        /\ t' = t ++ query_calls g queries
        /\ exists new, rs = results ++ new
                       /\ map Returned new = answers g t queries
    | (Threw error, this', t') =>
        this' = this
        /\ exists done q rest e new,
             queries = done ++ q :: rest
             /\ map Returned new = answers g t done
             /\ graph_query g (t ++ query_calls g done) q = Threw e
             /\ error = JS.ErrorObject
                          ("Failed executing query " ++ JS.dquote ++ q ++ JS.dquote
                           ++ ": Query execution failed: " ++ JS.errorMessage e)
             /\ t' = t ++ query_calls g (done ++ [q])
    end.
Proof.
  induction queries as [| q rest IH]; intros results this t Hg.
  - simpl. unfold ret. split; [reflexivity |]. split; [now rewrite app_nil_r |].
    exists []. split; [now rewrite app_nil_r | reflexivity].
  - simpl. unfold bind, try_catch. rewrite (query_selected q this g t Hg).
    destruct (graph_query g t q) as [r | e] eqn:Hq.
    + specialize (IH (results ++ [r]) this (t ++ [graph_query_call (graph_id g) q]) Hg).
      destruct (executeQueries_loop rest (results ++ [r]) this
                  (t ++ [graph_query_call (graph_id g) q])) as [[o this'] t'].
      destruct o as [rs | error].
      * destruct IH as (Hthis & Ht & new & Hrs & Hnew).
        split; [exact Hthis |]. split.
        { rewrite Ht. unfold query_calls. simpl. now rewrite <- app_assoc. }
        exists (r :: new). split.
        { rewrite Hrs. now rewrite <- app_assoc. }
        simpl. now rewrite Hnew.
      * destruct IH as (Hthis & done & q' & rest' & e & new & Hqs & Hnew & He & Herr & Ht).
        split; [exact Hthis |].
        exists (q :: done), q', rest', e, (r :: new).
        split; [now rewrite Hqs |].
        split; [simpl; now rewrite Hnew, Hq |].
        split.
        { unfold query_calls in *. simpl. now rewrite <- app_assoc in He. }
        split; [exact Herr |].
        rewrite Ht. unfold query_calls. simpl. now rewrite <- app_assoc.
    + unfold throw. split; [reflexivity |].
      exists [], q, rest, e, []. simpl. rewrite app_nil_r.
      repeat split. exact Hq.
Qed.

(** X4: with a graph selected, [executeQueries] asks the queries one after
    another in the order given.  When all succeed it returns their results
    in that order, one per query.  At the first query the handle refuses it
    stops: the remaining queries are never sent, the results gathered are
    lost, and the error names the query that failed, with the message
    wrapped twice.  The object is not touched. *)
Theorem executeQueries_stops_at_first_failure
    (queries : list string) (this : FalkorDBGraph) (g : Graph) (t : Trace) :
  graph this = Some g ->
  this_of (executeQueries queries this t) = this
  /\ match outcome_of (executeQueries queries this t) with
     | Returned results =>
         map Returned results = answers g t queries
         /\ List.length results = List.length queries
         /\ trace_of (executeQueries queries this t) = t ++ query_calls g queries
     | Threw error =>
         exists done q rest e results,
           queries = done ++ q :: rest
           /\ map Returned results = answers g t done
           /\ graph_query g (t ++ query_calls g done) q = Threw e
           /\ error = JS.ErrorObject
                        ("Failed executing query " ++ JS.dquote ++ q ++ JS.dquote
                         ++ ": Query execution failed: " ++ JS.errorMessage e)
           /\ trace_of (executeQueries queries this t)
              = t ++ query_calls g (done ++ [q])
     end.
Proof.
  intros Hg. unfold executeQueries, bind, get_this. rewrite Hg.
  pose proof (executeQueries_loop_spec g queries [] this t Hg) as H.
  destruct (executeQueries_loop queries [] this t) as [[o this'] t'].
  unfold this_of, outcome_of, trace_of. simpl.
  destruct o as [rs | error].
  - destruct H as (Hthis & Ht & new & Hrs & Hnew). simpl in Hrs. subst rs.
    split; [exact Hthis |]. split; [exact Hnew |]. split; [| exact Ht].
    assert (Hlen : forall qs t0, List.length (answers g t0 qs) = List.length qs).
    { induction qs as [| q0 qs IHq]; intros t0; simpl; [reflexivity |].
      now rewrite IHq. }
    rewrite <- (Hlen queries t), <- Hnew. now rewrite length_map.
  - destruct H as (Hthis & done & q & rest & e & new & H).
    split; [exact Hthis |]. now exists done, q, rest, e, new.
Qed.

Lemma executeQueries_stops_at_first_failure_witness :
  this_of (executeQueries [relQuery; relPropertiesQuery; nodePropertiesQuery]
             (Examples.session Examples.flakyGraph false) Examples.opening)
  = Examples.session Examples.flakyGraph false
  /\ exists done q rest e results,
       [relQuery; relPropertiesQuery; nodePropertiesQuery] = done ++ q :: rest
       /\ map Returned results = answers Examples.flakyGraph Examples.opening done
       /\ graph_query Examples.flakyGraph
            (Examples.opening ++ query_calls Examples.flakyGraph done) q
          = Threw e
       /\ JS.ErrorObject
            ("Failed executing query " ++ JS.dquote ++ relPropertiesQuery ++ JS.dquote
             ++ ": Query execution failed: Query timed out")
          = JS.ErrorObject
              ("Failed executing query " ++ JS.dquote ++ q ++ JS.dquote
               ++ ": Query execution failed: " ++ JS.errorMessage e)
       /\ trace_of (executeQueries [relQuery; relPropertiesQuery; nodePropertiesQuery]
                      (Examples.session Examples.flakyGraph false) Examples.opening)
          = Examples.opening ++ query_calls Examples.flakyGraph (done ++ [q]).
Proof.
  exact (executeQueries_stops_at_first_failure
           [relQuery; relPropertiesQuery; nodePropertiesQuery]
           (Examples.session Examples.flakyGraph false)
           Examples.flakyGraph Examples.opening eq_refl).
Defined.

(** ** selectGraph *)

Lemma selectGraph_connected (graphName : string) (this : FalkorDBGraph)
    (d : FalkorDB) (t : Trace) :
  driver this = Some d ->
  selectGraph graphName this t
  = match driver_selectGraph d t graphName with
    | Returned g =>
        (Returned tt, with_graph g this,
         t ++ [driver_selectGraph_call (driver_id d) graphName])
    | Threw e =>
        (Threw (JS.ErrorObject
                  ("Failed to select graph '" ++ graphName ++ "': "
                   ++ JS.errorMessage e)),
         this, t ++ [driver_selectGraph_call (driver_id d) graphName])
    end.
Proof.
  intros Hd. unfold selectGraph, bind, get_this, try_catch, call, assign, throw.
  rewrite Hd. now destruct (driver_selectGraph d t graphName).
Qed.

Lemma selectGraph_unconnected (graphName : string) (this : FalkorDBGraph) (t : Trace) :
  driver this = None ->
  selectGraph graphName this t
  = (Threw (JS.ErrorObject "FalkorDB driver not initialized. Call initialize() first."),
     this, t).
Proof.
  intros Hd. unfold selectGraph, bind, get_this. now rewrite Hd.
Qed.

(** X5: [selectGraph] asks the driver once.  When the driver refuses, the
    graph selected before stays selected and the error says which graph
    could not be selected.  When the driver returns a handle, that handle
    replaces the selection and nothing else changes: the cache still holds
    the schema of the graph selected before. *)
Theorem selectGraph_keeps_selection_on_failure
    (graphName : string) (this : FalkorDBGraph) (d : FalkorDB) (t : Trace) :
  driver this = Some d ->
  trace_of (selectGraph graphName this t)
  = t ++ [driver_selectGraph_call (driver_id d) graphName]
  /\ getSchema (this_of (selectGraph graphName this t)) = getSchema this
  /\ getStructuredSchema (this_of (selectGraph graphName this t))
     = getStructuredSchema this
  /\ (forall e, driver_selectGraph d t graphName = Threw e ->
        outcome_of (selectGraph graphName this t)
        = Threw (JS.ErrorObject
                   ("Failed to select graph '" ++ graphName ++ "': "
                    ++ JS.errorMessage e))
        /\ this_of (selectGraph graphName this t) = this)
  /\ (forall g, driver_selectGraph d t graphName = Returned g ->
        outcome_of (selectGraph graphName this t) = Returned tt
        /\ this_of (selectGraph graphName this t) = with_graph g this).
Proof.
  intros Hd. rewrite (selectGraph_connected graphName this d t Hd).
  destruct (driver_selectGraph d t graphName) as [g | e];
    unfold trace_of, this_of, outcome_of; simpl;
    (split; [reflexivity |]); (split; [reflexivity |]); (split; [reflexivity |]);
    split; intros x Hx; try discriminate; injection Hx as <-; now split.
Qed.

Lemma selectGraph_keeps_selection_on_failure_witness :
  outcome_of (selectGraph "other" Examples.owned [])
  = Returned tt
  /\ getSchema (this_of (selectGraph "other" Examples.owned [])) = getSchema Examples.owned.
Proof.
  destruct (selectGraph_keeps_selection_on_failure "other" Examples.owned
              Examples.ownDriver [] eq_refl) as (_ & Hs & _ & _ & Hok).
  split; [exact (proj1 (Hok _ eq_refl)) | exact Hs].
Defined.

(** X6: the schema follows the selected graph at the next refresh only.
    After [selectGraph] has switched to another graph the cache is the old
    one; the refresh that comes next caches what the new graph answers. *)
Theorem refreshSchema_follows_selectGraph
    (graphName : string) (this : FalkorDBGraph) (d : FalkorDB) (g : Graph) (t : Trace) :
  driver this = Some d ->
  driver_selectGraph d t graphName = Returned g ->
  getStructuredSchema (this_of (selectGraph graphName this t))
  = getStructuredSchema this
  /\ getStructuredSchema
       (this_of (refreshSchema (this_of (selectGraph graphName this t))
                               (trace_of (selectGraph graphName this t))))
     = discovered g (t ++ [driver_selectGraph_call (driver_id d) graphName]).
Proof.
  intros Hd Hsel. rewrite (selectGraph_connected graphName this d t Hd), Hsel.
  unfold this_of, trace_of. simpl. split; [reflexivity |].
  now rewrite (refreshSchema_selected (with_graph g this) g _ eq_refl).
Qed.

Lemma refreshSchema_follows_selectGraph_witness :
  getStructuredSchema (this_of (selectGraph "people" Examples.refreshedOnce
                                            Examples.refreshedOnceTrace))
  = Examples.personSchema
  /\ getStructuredSchema
       (this_of (refreshSchema
                   (this_of (selectGraph "people" Examples.refreshedOnce
                                         Examples.refreshedOnceTrace))
                   (trace_of (selectGraph "people" Examples.refreshedOnce
                                          Examples.refreshedOnceTrace))))
     = initialStructuredSchema.
Proof.
  exact (refreshSchema_follows_selectGraph "people" Examples.refreshedOnce
           (Examples.driverFor Examples.droppingGraph) Examples.droppingGraph
           Examples.refreshedOnceTrace eq_refl eq_refl).
Defined.

(** ** What a call can change *)

(** X7: the cache changes in [refreshSchema] and nowhere else: after any
    other call, returned or thrown, [getSchema] and [getStructuredSchema]
    give what they gave before.  So the cache is stale after [clearGraph],
    after a query that writes, and after [selectGraph]. *)
Theorem cache_changes_in_refreshSchema_only (c : Call) (this : FalkorDBGraph) (t : Trace) :
  c <> call_refreshSchema ->
  getSchema (fst (perform c this t)) = getSchema this
  /\ getStructuredSchema (fst (perform c this t)) = getStructuredSchema this.
Proof.
  intros Hc. destruct c; simpl.
  - destruct (selectGraph_this graphName this t) as [-> | [g ->]]; now split.
  - now rewrite query_this.
  - now rewrite verifyConnectivity_this.
  - now destruct Hc.
  - now rewrite close_this.
  - now rewrite executeQueries_this.
  - now rewrite clearGraph_this.
  - now split.
Qed.

Lemma cache_changes_in_refreshSchema_only_witness :
  getStructuredSchema
    (fst (perform call_clearGraph
            (this_of (refreshSchema (Examples.session Examples.socialGraph false)
                                    Examples.opening))
            (trace_of (refreshSchema (Examples.session Examples.socialGraph false)
                                     Examples.opening))))
  = Examples.personSchema.
Proof.
  refine (eq_trans
            (proj2 (cache_changes_in_refreshSchema_only call_clearGraph _ _ _)) _).
  - discriminate.
  - reflexivity.
Defined.

(** X8: no call disconnects the object or deselects its graph.
    [isConnected] gives after any call what it gave before, also after
    [close]; [hasSelectedGraph], once true, stays true, also after a
    [selectGraph] that failed. *)
Theorem calls_keep_driver_and_selection (c : Call) (this : FalkorDBGraph) (t : Trace) :
  isConnected (fst (perform c this t)) = isConnected this
  /\ (hasSelectedGraph this = true ->
      hasSelectedGraph (fst (perform c this t)) = true).
Proof.
  unfold isConnected, hasSelectedGraph. destruct c; simpl.
  - destruct (selectGraph_this graphName this t) as [-> | [g ->]]; now split.
  - now rewrite query_this.
  - now rewrite verifyConnectivity_this.
  - destruct (refreshSchema_this this t) as [-> | [s ->]]; now split.
  - now rewrite close_this.
  - now rewrite executeQueries_this.
  - now rewrite clearGraph_this.
  - now split.
Qed.

Lemma calls_keep_driver_and_selection_witness :
  isConnected (fst (perform call_close Examples.owned [])) = true
  /\ hasSelectedGraph (fst (perform call_close Examples.owned [])) = true.
Proof.
  destruct (calls_keep_driver_and_selection call_close Examples.owned []) as [Hc Hs].
  split; [exact Hc | exact (Hs eq_refl)].
Defined.

(** ** The constructor and initialize *)

Section Opening.

Variable new_URL : string -> option JS.URL.
Variable parseInt : string -> Z -> Z.
Variable FalkorDB_connect : Trace -> DriverOptions -> Outcome FalkorDB.

Lemma constructor_settings (config : FalkorDBGraphConfig) :
  enhancedSchema (constructor new_URL parseInt config)
  = JS.nullish (config_enhancedSchema config) false
  /\ database (constructor new_URL parseInt config) = "falkordb"
  /\ timeoutMs (constructor new_URL parseInt config) = 30000%Z
  /\ enhancedSchemaCypher (constructor new_URL parseInt config) = false.
Proof.
  unfold constructor.
  destruct (match config_driver config with
            | Some _ => _
            | None => _
            end) as [h p].
  repeat split.
Qed.

(** X9: an object that comes from the constructor alone, not from
    [initialize], is inert, even when the configuration carries a driver:
    it is neither connected nor has it a graph, and whatever is called on it
    makes no call to the outside and leaves it as it was. *)
Theorem constructed_object_is_inert
    (config : FalkorDBGraphConfig) (c : Call) (t : Trace) :
  isConnected (constructor new_URL parseInt config) = false
  /\ hasSelectedGraph (constructor new_URL parseInt config) = false
  /\ perform c (constructor new_URL parseInt config) t
     = (constructor new_URL parseInt config, t).
Proof.
  destruct (constructor_fields new_URL parseInt config) as (Hd & Hg & _).
  set (this := constructor new_URL parseInt config) in *.
  unfold isConnected, hasSelectedGraph. rewrite Hd, Hg.
  split; [reflexivity |]. split; [reflexivity |].
  destruct c; simpl.
  - now rewrite (selectGraph_unconnected graphName this t Hd).
  - unfold query, bind, get_this. now rewrite Hg.
  - unfold verifyConnectivity, bind, get_this. now rewrite Hd.
  - now rewrite (refreshSchema_unselected this t Hg).
  - unfold close, bind, get_this, try_catch. now rewrite Hd.
  - unfold executeQueries, bind, get_this. now rewrite Hg.
  - unfold clearGraph, bind, get_this. now rewrite Hg.
  - reflexivity.
Qed.

(** X10: the address an object shows.  With a driver in the configuration
    the URL is not looked at: host and port are those of the
    configuration, or localhost and 6379.  The same holds without a URL and
    with a URL that does not parse.  A URL that parses gives its host name
    and its port, with localhost and 6379 where it has none. *)
Theorem constructor_address (config : FalkorDBGraphConfig) :
  (config_driver config <> None
   \/ JS.truthy (config_url config) = None
   \/ (exists url, JS.truthy (config_url config) = Some url /\ new_URL url = None) ->
   host (constructor new_URL parseInt config)
   = JS.nullish (config_host config) "localhost"
   /\ port (constructor new_URL parseInt config)
      = JS.nullish (config_port config) 6379%Z)
  /\ (forall url parsed,
        config_driver config = None ->
        JS.truthy (config_url config) = Some url ->
        new_URL url = Some parsed ->
        host (constructor new_URL parseInt config)
        = (if String.eqb (JS.hostname parsed) "" then "localhost"
           else JS.hostname parsed)
        /\ port (constructor new_URL parseInt config)
           = (if String.eqb (JS.port parsed) "" then 6379%Z
              else parseInt (JS.port parsed) 10%Z)).
Proof.
  unfold constructor. split.
  - intros [Hd | [Hu | (url & Hu & Hp)]].
    + destruct (config_driver config); [now split | now destruct Hd].
    + rewrite Hu. destruct (config_driver config); now split.
    + rewrite Hu, Hp. destruct (config_driver config); now split.
  - intros url parsed Hd Hu Hp. rewrite Hd, Hu, Hp. simpl.
    destruct (JS.hostname parsed), (JS.port parsed); now split.
Qed.

Lemma initialize_unfolded (config : FalkorDBGraphConfig) (t : Trace) :
  initialize new_URL parseInt FalkorDB_connect config t
  = match config_driver config with
    | Some d => opened_with config d (constructor new_URL parseInt config) t
    | None =>
        match FalkorDB_connect t
                (driverOptions_of config (constructor new_URL parseInt config)) with
        | Returned d =>
            opened_with config d (constructor new_URL parseInt config)
              (t ++ [FalkorDB_connect_call
                       (driverOptions_of config (constructor new_URL parseInt config))])
        | Threw e =>
            (Threw (connectFailure (constructor new_URL parseInt config)
                      (JS.errorMessage e)),
             t ++ [FalkorDB_connect_call
                     (driverOptions_of config (constructor new_URL parseInt config))])
        end
    end.
Proof.
  unfold initialize, opened_with, connectFailure.
  set (this0 := constructor new_URL parseInt config).
  set (opts := driverOptions_of config this0).
  assert (Hrest : forall (d : FalkorDB) (t1 : Trace),
             (verifyConnectivity ;;;
              match JS.truthy (config_graph config) with
              | Some graphName => selectGraph graphName
              | None => ret tt
              end) (with_driver d this0) t1
             = match driver_info d t1 with
               | Threw e =>
                   (Threw (JS.ErrorObject
                             ("Failed to verify connectivity: " ++ JS.errorMessage e)),
                    with_driver d this0, t1 ++ [driver_info_call (driver_id d)])
               | Returned _ =>
                   match JS.truthy (config_graph config) with
                   | None =>
                       (Returned tt, with_driver d this0,
                        t1 ++ [driver_info_call (driver_id d)])
                   | Some graphName =>
                       selectGraph graphName (with_driver d this0)
                         (t1 ++ [driver_info_call (driver_id d)])
                   end
               end).
  { intros d t1.
    unfold verifyConnectivity, bind, try_catch, get_this, call, throw, ret. simpl.
    destruct (driver_info d t1) as [[] | e]; [| reflexivity].
    now destruct (JS.truthy (config_graph config)). }
  destruct (config_driver config) as [given |].
  - unfold bind at 1. unfold assign at 1. rewrite Hrest.
    destruct (driver_info given t) as [[] | e]; [| reflexivity].
    destruct (JS.truthy (config_graph config)) as [graphName |]; [| reflexivity].
    rewrite (selectGraph_connected graphName (with_driver given this0) given _ eq_refl).
    now destruct (driver_selectGraph given _ graphName).
  - unfold bind at 1. unfold bind at 1. unfold call at 1. fold opts.
    destruct (FalkorDB_connect t opts) as [d | e]; [| reflexivity].
    unfold assign at 1. rewrite Hrest.
    destruct (driver_info d _) as [[] | e]; [| reflexivity].
    destruct (JS.truthy (config_graph config)) as [graphName |]; [| reflexivity].
    rewrite (selectGraph_connected graphName (with_driver d this0) d _ eq_refl).
    now destruct (driver_selectGraph d _ graphName).
Qed.

End Opening.

Section Connecting.

Variable new_URL : string -> option JS.URL.
Variable parseInt : string -> Z -> Z.
Variable FalkorDB_connect : Trace -> DriverOptions -> Outcome FalkorDB.

Lemma opened_with_returns (config : FalkorDBGraphConfig) (d : FalkorDB)
    (this0 this : FalkorDBGraph) (t t' : Trace) :
  opened_with config d this0 t = (Returned this, t') ->
  this = with_driver d this0
  \/ exists g, this = with_graph g (with_driver d this0)
               /\ JS.truthy (config_graph config) <> None.
Proof.
  unfold opened_with.
  destruct (driver_info d t) as [[] | e]; [| discriminate].
  destruct (JS.truthy (config_graph config)) as [graphName |].
  - destruct (driver_selectGraph d _ graphName) as [g | e]; [| discriminate].
    intros H. injection H as <- _. right. exists g. split; [reflexivity | discriminate].
  - intros H. injection H as <- _. now left.
Qed.

(** X11: what [initialize] returns is connected, has a graph selected
    exactly when the configuration names one (an empty name counts as
    none), holds the empty cache of a new object, and shows the address the
    constructor worked out. *)
Theorem initialize_returns_ready_object
    (config : FalkorDBGraphConfig) (t : Trace) (this : FalkorDBGraph) (t' : Trace) :
  initialize new_URL parseInt FalkorDB_connect config t = (Returned this, t') ->
  isConnected this = true
  /\ hasSelectedGraph this
     = match JS.truthy (config_graph config) with Some _ => true | None => false end
  /\ getSchema this = ""
  /\ getStructuredSchema this = initialStructuredSchema
  /\ getConnectionUrl this
     = getConnectionUrl (constructor new_URL parseInt config).
Proof.
  rewrite initialize_unfolded.
  destruct (constructor_fields new_URL parseInt config) as (_ & Hg & Hs & Hss & _).
  set (this0 := constructor new_URL parseInt config) in *.
  assert (Hw : forall d t1,
             opened_with config d this0 t1 = (Returned this, t') ->
             isConnected this = true
             /\ hasSelectedGraph this
                = match JS.truthy (config_graph config) with
                  | Some _ => true
                  | None => false
                  end
             /\ getSchema this = ""
             /\ getStructuredSchema this = initialStructuredSchema
             /\ getConnectionUrl this = getConnectionUrl this0).
  { intros d t1 H. pose proof H as H'. apply opened_with_returns in H'.
    unfold opened_with in H.
    destruct (driver_info d t1) as [[] | e]; [| discriminate].
    unfold isConnected, hasSelectedGraph, getSchema, getStructuredSchema,
      getConnectionUrl.
    destruct (JS.truthy (config_graph config)) as [graphName |].
    - destruct (driver_selectGraph d _ graphName) as [g | e]; [| discriminate].
      injection H as <- _. simpl. now rewrite Hs, Hss.
    - injection H as <- _. simpl. now rewrite Hg, Hs, Hss. }
  destruct (config_driver config) as [given |]; [apply Hw |].
  destruct (FalkorDB_connect t _) as [d | e]; [apply Hw | discriminate].
Qed.

(** X12: every failure of [initialize] reaches the caller as one [Error]
    that begins with the address the object shows, whichever step failed:
    [FalkorDB.connect], the connectivity check, or the selection of the
    configured graph. *)
Theorem initialize_failure_names_address
    (config : FalkorDBGraphConfig) (t : Trace) (error : JS.Thrown) (t' : Trace) :
  initialize new_URL parseInt FalkorDB_connect config t = (Threw error, t') ->
  exists message,
    error = connectFailure (constructor new_URL parseInt config) message
    /\ ((exists e,
           config_driver config = None
           /\ FalkorDB_connect t
                (driverOptions_of config (constructor new_URL parseInt config))
              = Threw e
           /\ message = JS.errorMessage e)
        \/ (exists e,
              message = ("Failed to verify connectivity: " ++ JS.errorMessage e)%string)
        \/ (exists graphName e,
              JS.truthy (config_graph config) = Some graphName
              /\ message = ("Failed to select graph '" ++ graphName ++ "': "
                           ++ JS.errorMessage e)%string)).
Proof.
  rewrite initialize_unfolded.
  set (this0 := constructor new_URL parseInt config).
  assert (Hw : forall d t1,
             opened_with config d this0 t1 = (Threw error, t') ->
             exists message,
               error = connectFailure this0 message
               /\ ((exists e,
                      message = ("Failed to verify connectivity: " ++ JS.errorMessage e)%string)
                   \/ (exists graphName e,
                         JS.truthy (config_graph config) = Some graphName
                         /\ message = ("Failed to select graph '" ++ graphName ++ "': "
                                      ++ JS.errorMessage e)%string))).
  { intros d t1. unfold opened_with.
    destruct (driver_info d t1) as [[] | e].
    - destruct (JS.truthy (config_graph config)) as [graphName |]; [| discriminate].
      destruct (driver_selectGraph d _ graphName) as [g | e]; [discriminate |].
      intros H. injection H as <- _. eexists. split; [reflexivity |].
      right. now exists graphName, e.
    - intros H. injection H as <- _. eexists. split; [reflexivity |].
      left. now exists e. }
  destruct (config_driver config) as [given |].
  - intros H. destruct (Hw _ _ H) as (message & He & Hm).
    exists message. split; [exact He | now right].
  - destruct (FalkorDB_connect t _) as [d | e] eqn:Hconn.
    + intros H. destruct (Hw _ _ H) as (message & He & Hm).
      exists message. split; [exact He | now right].
    + intros H. injection H as <- _. eexists. split; [reflexivity |].
      left. now exists e.
Qed.

(** X13: with a driver in the configuration, [initialize] does not call
    [FalkorDB.connect] and its result does not depend on it.  It asks the
    driver for its info and, when that went well and the configuration
    names a graph, for the graph; when the check fails the graph is never
    asked for. *)
Theorem initialize_with_driver_never_connects
    (config : FalkorDBGraphConfig) (d : FalkorDB) (t : Trace)
    (other_connect : Trace -> DriverOptions -> Outcome FalkorDB) :
  config_driver config = Some d ->
  initialize new_URL parseInt FalkorDB_connect config t
  = initialize new_URL parseInt other_connect config t
  /\ snd (initialize new_URL parseInt FalkorDB_connect config t)
     = (t ++ [driver_info_call (driver_id d)])
       ++ match driver_info d t, JS.truthy (config_graph config) with
          | Returned _, Some graphName =>
              [driver_selectGraph_call (driver_id d) graphName]
          | _, _ => []
          end.
Proof.
  intros Hd. rewrite !initialize_unfolded, Hd. split; [reflexivity |].
  unfold opened_with.
  destruct (driver_info d t) as [[] | e]; simpl; [| now rewrite app_nil_r].
  destruct (JS.truthy (config_graph config)) as [graphName |]; simpl;
    [| now rewrite app_nil_r].
  now destruct (driver_selectGraph d _ graphName).
Qed.

(** X14: without a driver in the configuration, [initialize] calls
    [FalkorDB.connect] first and once.  A URL, when there is one, goes into
    the options alone, without a socket, so host and port of the
    configuration play no part; without a URL the options carry the socket
    of the configured host and port, or localhost and 6379.  User name and
    password go along when they are not empty. *)
Theorem initialize_connects_by_url_or_socket
    (config : FalkorDBGraphConfig) (t : Trace) :
  config_driver config = None ->
  exists options rest,
    snd (initialize new_URL parseInt FalkorDB_connect config t)
    = (t ++ [FalkorDB_connect_call options]) ++ rest
    /\ connect_calls rest = 0
    /\ opt_url options = JS.truthy (config_url config)
    /\ opt_socket options
       = match JS.truthy (config_url config) with
         | Some _ => None
         | None => Some (JS.nullish (config_host config) "localhost",
                         JS.nullish (config_port config) 6379%Z)
         end
    /\ opt_username options = JS.truthy (config_username config)
    /\ opt_password options = JS.truthy (config_password config).
Proof.
  intros Hd. rewrite initialize_unfolded, Hd.
  exists (driverOptions_of config (constructor new_URL parseInt config)).
  set (this0 := constructor new_URL parseInt config).
  set (options := driverOptions_of config this0).
  assert (Hopts : opt_url options = JS.truthy (config_url config)
                  /\ opt_socket options
                     = match JS.truthy (config_url config) with
                       | Some _ => None
                       | None => Some (JS.nullish (config_host config) "localhost",
                                       JS.nullish (config_port config) 6379%Z)
                       end
                  /\ opt_username options = JS.truthy (config_username config)
                  /\ opt_password options = JS.truthy (config_password config)).
  { unfold options, driverOptions_of, this0, constructor. simpl. rewrite Hd.
    destruct (JS.truthy (config_url config)); repeat split. }
  assert (Hw : forall d t1,
             exists rest,
               snd (opened_with config d this0 t1) = t1 ++ rest
               /\ connect_calls rest = 0).
  { intros d t1. unfold opened_with.
    destruct (driver_info d t1) as [[] | e]; simpl; [| now eexists].
    destruct (JS.truthy (config_graph config)) as [graphName |]; simpl; [| now eexists].
    destruct (driver_selectGraph d _ graphName); simpl;
      rewrite <- app_assoc; now eexists. }
  destruct (FalkorDB_connect t options) as [d | e].
  - destruct (Hw d (t ++ [FalkorDB_connect_call options])) as (rest & Hrest & Hzero).
    exists rest. split; [exact Hrest |]. split; [exact Hzero | exact Hopts].
  - exists []. simpl. split; [now rewrite app_nil_r |]. split; [reflexivity | exact Hopts].
Qed.

Lemma perform_settings (c : Call) (this : FalkorDBGraph) (t : Trace) :
  host (fst (perform c this t)) = host this
  /\ port (fst (perform c this t)) = port this
  /\ enhancedSchema (fst (perform c this t)) = enhancedSchema this
  /\ database (fst (perform c this t)) = database this
  /\ timeoutMs (fst (perform c this t)) = timeoutMs this
  /\ enhancedSchemaCypher (fst (perform c this t)) = enhancedSchemaCypher this.
Proof.
  destruct c; simpl.
  - destruct (selectGraph_this graphName this t) as [-> | [g ->]]; repeat split.
  - rewrite query_this. repeat split.
  - rewrite verifyConnectivity_this. repeat split.
  - destruct (refreshSchema_this this t) as [-> | [s ->]]; repeat split.
  - rewrite close_this. repeat split.
  - rewrite executeQueries_this. repeat split.
  - rewrite clearGraph_this. repeat split.
  - repeat split.
Qed.

(** X15: what the constructor settles stays settled.  On every object a
    program can hold, the connection URL shown is the one of the new
    object, the enhanced mode is the one of the configuration (off when it
    names none), and the three compatibility properties have their initial
    values. *)
Theorem settings_are_fixed_at_construction
    (config : FalkorDBGraphConfig) (this : FalkorDBGraph) :
  Constructed new_URL parseInt FalkorDB_connect config this ->
  getConnectionUrl this = getConnectionUrl (constructor new_URL parseInt config)
  /\ enhancedSchema this = JS.nullish (config_enhancedSchema config) false
  /\ database this = "falkordb"
  /\ timeoutMs this = 30000%Z
  /\ enhancedSchemaCypher this = false.
Proof.
  intros Hc.
  assert (H : host this = host (constructor new_URL parseInt config)
              /\ port this = port (constructor new_URL parseInt config)
              /\ enhancedSchema this = enhancedSchema (constructor new_URL parseInt config)
              /\ database this = database (constructor new_URL parseInt config)
              /\ timeoutMs this = timeoutMs (constructor new_URL parseInt config)
              /\ enhancedSchemaCypher this
                 = enhancedSchemaCypher (constructor new_URL parseInt config)).
  { induction Hc as [| t this t' Hinit | this c t _ IH].
    - repeat split.
    - rewrite initialize_unfolded in Hinit.
      assert (Hw : forall d t1,
                 opened_with config d (constructor new_URL parseInt config) t1
                 = (Returned this, t') ->
                 this = with_driver d (constructor new_URL parseInt config)
                 \/ exists g, this = with_graph g
                                       (with_driver d (constructor new_URL parseInt config))).
      { intros d t1 H. apply opened_with_returns in H.
        destruct H as [H | (g & H & _)]; [now left | right; now exists g]. }
      assert (Hthis : exists d,
                 this = with_driver d (constructor new_URL parseInt config)
                 \/ exists g, this = with_graph g
                                       (with_driver d (constructor new_URL parseInt config))).
      { destruct (config_driver config) as [given |]; [exists given; eapply Hw; eauto |].
        destruct (FalkorDB_connect t _) as [d | e]; [| discriminate].
        exists d. eapply Hw; eauto. }
      destruct Hthis as (d & [-> | (g & ->)]); repeat split.
    - destruct (perform_settings c this t) as (-> & -> & -> & -> & -> & ->).
      exact IH. }
  destruct H as (Hh & Hp & He & Hdb & Htm & Hec).
  destruct (constructor_settings new_URL parseInt config) as (He0 & Hdb0 & Htm0 & Hec0).
  unfold getConnectionUrl. rewrite Hh, Hp, He, Hdb, Htm, Hec.
  repeat split; assumption.
Qed.

Lemma perform_coherent (c : Call) (this : FalkorDBGraph) (t : Trace) :
  coherent this -> coherent (fst (perform c this t)).
Proof.
  intros Hco. destruct c; simpl.
  - destruct (driver this) as [d |] eqn:Hd.
    + rewrite (selectGraph_connected graphName this d t Hd).
      destruct (driver_selectGraph d t graphName) as [g | e]; [| exact Hco].
      unfold coherent, this_of. simpl.
      unfold isConnected, hasSelectedGraph. simpl. rewrite Hd.
      split; [reflexivity | discriminate].
    + now rewrite (selectGraph_unconnected graphName this t Hd).
  - now rewrite query_this.
  - now rewrite verifyConnectivity_this.
  - destruct (graph this) as [g |] eqn:Hg.
    + rewrite (refreshSchema_selected this g t Hg).
      destruct Hco as (H1 & _). unfold coherent, this_of. simpl.
      unfold isConnected, hasSelectedGraph in *. simpl. rewrite Hg in *.
      split; [exact H1 | discriminate].
    + now rewrite (refreshSchema_unselected this t Hg).
  - now rewrite close_this.
  - now rewrite executeQueries_this.
  - now rewrite clearGraph_this.
  - exact Hco.
Qed.

(** X16: on every object a program can hold, a selected graph came from a
    driver the object still has, and an object without a selected graph
    has the cache of a new object: the empty string and the empty
    structured schema.  So a refresh that is refused for want of a graph
    never has a schema to keep. *)
Theorem Constructed_coherent (config : FalkorDBGraphConfig) (this : FalkorDBGraph) :
  Constructed new_URL parseInt FalkorDB_connect config this ->
  coherent this.
Proof.
  induction 1 as [| t this t' Hinit | this c t _ IH].
  - destruct (constructor_fields new_URL parseInt config) as (Hd & Hg & Hs & Hss & _).
    unfold coherent, hasSelectedGraph, isConnected, getSchema, getStructuredSchema.
    rewrite Hg, Hs, Hss. split; [discriminate | now split].
  - destruct (initialize_returns new_URL parseInt FalkorDB_connect config t this t' Hinit)
      as (_ & d & Hd & _).
    rewrite initialize_unfolded in Hinit.
    destruct (constructor_fields new_URL parseInt config) as (_ & Hg & Hs & Hss & _).
    assert (Hthis : exists d0,
               this = with_driver d0 (constructor new_URL parseInt config)
               \/ exists g, this = with_graph g
                                     (with_driver d0 (constructor new_URL parseInt config))).
    { destruct (config_driver config) as [given |].
      - exists given. apply opened_with_returns in Hinit.
        destruct Hinit as [H | (g & H & _)]; [now left | right; now exists g].
      - destruct (FalkorDB_connect t _) as [d0 | e]; [| discriminate].
        exists d0. apply opened_with_returns in Hinit.
        destruct Hinit as [H | (g & H & _)]; [now left | right; now exists g]. }
    unfold coherent, hasSelectedGraph, isConnected, getSchema, getStructuredSchema.
    rewrite Hd.
    destruct Hthis as (d0 & [-> | (g & ->)]); simpl; rewrite ?Hg, Hs, Hss;
      (split; [reflexivity |]); intros _; now split.
  - now apply perform_coherent.
Qed.

End Connecting.

Lemma constructor_address_witness :
  host (constructor Samples.new_URL Samples.parseInt Samples.mixedConfig) = "db.example"
  /\ port (constructor Samples.new_URL Samples.parseInt Samples.mixedConfig) = 7000%Z
  /\ host (constructor Samples.new_URL Samples.parseInt Samples.brokenUrlConfig)
     = "db.internal"
  /\ port (constructor Samples.new_URL Samples.parseInt Samples.brokenUrlConfig)
     = 6379%Z.
Proof.
  destruct (proj2 (constructor_address Samples.new_URL Samples.parseInt
                     Samples.mixedConfig)
                  "falkor://db.example:7000" (JS.mkURL "db.example" "7000")
                  eq_refl eq_refl eq_refl) as [Hh Hp].
  destruct (proj1 (constructor_address Samples.new_URL Samples.parseInt
                     Samples.brokenUrlConfig)
                  (or_intror (or_intror
                     (ex_intro _ "not a url" (conj eq_refl eq_refl))))) as [Hh' Hp'].
  split; [exact Hh |]. split; [exact Hp |]. split; [exact Hh' | exact Hp'].
Defined.

Lemma initialize_returns_ready_object_witness :
  isConnected Examples.owned = true
  /\ hasSelectedGraph Examples.owned = true
  /\ getConnectionUrl Examples.owned = "http://localhost:6379".
Proof.
  destruct (initialize_returns_ready_object Examples.new_URL Examples.parseInt
              Examples.FalkorDB_connect Examples.ownConfig [] Examples.owned _ eq_refl)
    as (Hc & Hs & _ & _ & Hu).
  split; [exact Hc |]. split; [exact Hs | exact Hu].
Defined.

Lemma initialize_failure_names_address_witness :
  exists message,
    JS.ErrorObject "Failed to connect to FalkorDB at db.internal:6379: ECONNREFUSED"
    = connectFailure
        (constructor Samples.new_URL Samples.parseInt Samples.brokenUrlConfig) message.
Proof.
  destruct (initialize_failure_names_address Samples.new_URL Samples.parseInt
              Samples.unreachable Samples.brokenUrlConfig [] _ _ eq_refl)
    as (message & Hm & _).
  exists message. exact Hm.
Defined.

Lemma initialize_with_driver_never_connects_witness :
  initialize Examples.new_URL Examples.parseInt Examples.FalkorDB_connect
    (Examples.configFor Examples.socialGraph false) []
  = initialize Examples.new_URL Examples.parseInt Samples.unreachable
      (Examples.configFor Examples.socialGraph false) [].
Proof.
  exact (proj1 (initialize_with_driver_never_connects Examples.new_URL Examples.parseInt
                  Examples.FalkorDB_connect
                  (Examples.configFor Examples.socialGraph false)
                  (Examples.driverFor Examples.socialGraph) []
                  Samples.unreachable eq_refl)).
Defined.

Lemma initialize_connects_by_url_or_socket_witness :
  exists options,
    opt_url options = Some "falkor://db.example:7000"
    /\ opt_socket options = None.
Proof.
  destruct (initialize_connects_by_url_or_socket Samples.new_URL Samples.parseInt
              Examples.FalkorDB_connect Samples.mixedConfig [] eq_refl)
    as (options & rest & _ & _ & Hu & Hs & _).
  exists options. split; [exact Hu | exact Hs].
Defined.

Lemma settings_are_fixed_at_construction_witness :
  getConnectionUrl
    (fst (perform call_refreshSchema (Examples.session Examples.socialGraph true)
            Examples.opening))
  = "http://localhost:6379"
  /\ enhancedSchema
       (fst (perform call_refreshSchema (Examples.session Examples.socialGraph true)
               Examples.opening))
     = true.
Proof.
  destruct (settings_are_fixed_at_construction Examples.new_URL Examples.parseInt
              Examples.FalkorDB_connect (Examples.configFor Examples.socialGraph true)
              _
              (constructed_call _ _ _ _ _ call_refreshSchema Examples.opening
                 (constructed_initialize Examples.new_URL Examples.parseInt
                    Examples.FalkorDB_connect
                    (Examples.configFor Examples.socialGraph true)
                    [] (Examples.session Examples.socialGraph true) _ eq_refl)))
    as (Hu & He & _).
  split; [exact Hu | exact He].
Defined.

Lemma Constructed_coherent_witness :
  coherent
    (fst (perform call_refreshSchema (Examples.session Examples.socialGraph false)
            Examples.opening)).
Proof.
  exact (Constructed_coherent Examples.new_URL Examples.parseInt
           Examples.FalkorDB_connect (Examples.configFor Examples.socialGraph false)
           _
           (constructed_call _ _ _ _ _ call_refreshSchema Examples.opening
              (constructed_initialize Examples.new_URL Examples.parseInt
                 Examples.FalkorDB_connect
                 (Examples.configFor Examples.socialGraph false)
                 [] (Examples.session Examples.socialGraph false) _ eq_refl))).
Defined.

(** ** More on refreshSchema *)

(** X17: with a graph selected, a refresh asks the three queries once
    each, in the order node properties, relationship properties,
    relationships, also when an earlier one has thrown; nothing is asked
    twice and nothing is skipped.  In the enhanced mode one line on the
    console follows. *)
Theorem refreshSchema_asks_three_queries (this : FalkorDBGraph) (g : Graph) (t : Trace) :
  graph this = Some g ->
  trace_of (refreshSchema this t)
  = (((t ++ [graph_query_call (graph_id g) nodePropertiesQuery])
      ++ [graph_query_call (graph_id g) relPropertiesQuery])
     ++ [graph_query_call (graph_id g) relQuery])
    ++ (if enhancedSchema this
        then [console_log "Enhanced schema details not yet implemented for FalkorDB."]
        else []).
Proof.
  intros Hg. rewrite (refreshSchema_selected this g t Hg).
  unfold trace_of, enhancedTrace, nodePropertiesCall, relPropertiesCall, relCall. simpl.
  destruct (enhancedSchema this); [reflexivity | now rewrite app_nil_r].
Qed.

Lemma refreshSchema_asks_three_queries_witness :
  trace_of (refreshSchema Examples.refreshedOnce Examples.refreshedOnceTrace)
  = Examples.refreshedOnceTrace
    ++ [graph_query_call 1 nodePropertiesQuery;
        graph_query_call 1 relPropertiesQuery;
        graph_query_call 1 relQuery].
Proof.
  exact (refreshSchema_asks_three_queries Examples.refreshedOnce Examples.droppingGraph
           Examples.refreshedOnceTrace eq_refl).
Defined.

Lemma get_property_set {V : Type} (k k' : string) (v : V) (o : JS.Object V) :
  get_property k (JS.set k' v o)
  = if String.eqb k k' then Some v else get_property k o.
Proof.
  induction o as [| [k0 v0] o IH]; simpl; [reflexivity |].
  destruct (String.eqb k' k0) eqn:E; simpl.
  - apply String.eqb_eq in E. subst k0. now destruct (String.eqb k k').
  - rewrite IH. destruct (String.eqb k k0) eqn:E0; [| reflexivity].
    apply String.eqb_eq in E0. subst k0.
    rewrite String.eqb_sym in E. now rewrite E.
Qed.

Lemma find_app {A : Type} (p : A -> bool) (l1 l2 : list A) :
  find p (l1 ++ l2)
  = match find p l1 with Some x => Some x | None => find p l2 end.
Proof.
  induction l1 as [| x l1 IH]; simpl; [reflexivity |].
  now destruct (p x).
Qed.

Lemma find_map {A B : Type} (f : A -> B) (p : B -> bool) (l : list A) :
  find p (map f l) = option_map f (find (fun x => p (f x)) l).
Proof.
  induction l as [| x l IH]; simpl; [reflexivity |].
  now destruct (p (f x)).
Qed.

Lemma get_property_fold {V : Type} (k : string) (es : list (string * V)) :
  forall acc : JS.Object V,
    get_property k (fold_left (fun o e => JS.set (fst e) (snd e) o) es acc)
    = match find (fun e => String.eqb k (fst e)) (rev es) with
      | Some e => Some (snd e)
      | None => get_property k acc
      end.
Proof.
  induction es as [| e es IH]; intros acc; simpl; [reflexivity |].
  rewrite IH, find_app, get_property_set. simpl.
  destruct (find (fun e0 => String.eqb k (fst e0)) (rev es)); [reflexivity |].
  now destruct (String.eqb k (fst e)).
Qed.

Lemma get_property_fromEntries (key : Output -> string) (k : string) (rows : list Row) :
  get_property k
    (JS.fromEntries (map (fun el => (key (output el), properties (output el))) rows))
  = last_record key k rows.
Proof.
  unfold JS.fromEntries, last_record. rewrite get_property_fold.
  rewrite <- map_rev, find_map. simpl.
  now destruct (find (fun el => String.eqb k (key (output el))) (rev rows)).
Qed.

(** X18: records are not merged.  When the node-properties query returns
    several records with one label, [nodeProps] has under that label the
    property list of the last of them, and the lists of the earlier ones
    are dropped; a label no record carries is absent.  The same holds for
    relationship types in [relProps]. *)
Theorem refreshSchema_last_record_wins
    (this : FalkorDBGraph) (g : Graph) (t : Trace) (k : string) :
  graph this = Some g ->
  get_property k (nodeProps (getStructuredSchema (this_of (refreshSchema this t))))
  = last_record label k (contributed (nodePropertiesAnswer g t))
  /\ get_property k (relProps (getStructuredSchema (this_of (refreshSchema this t))))
     = last_record type k (contributed (relPropertiesAnswer g t)).
Proof.
  intros Hg. rewrite (refreshSchema_selected this g t Hg).
  unfold this_of, getStructuredSchema, discovered, nodePropsOf, relPropsOf. simpl.
  split; apply get_property_fromEntries.
Qed.

Lemma refreshSchema_last_record_wins_witness :
  get_property "Person"
    (nodeProps (getStructuredSchema
                  (this_of (refreshSchema (Examples.session Samples.splitGraph false)
                                          Examples.opening))))
  = Some ["name"; "age"].
Proof.
  exact (proj1 (refreshSchema_last_record_wins
                  (Examples.session Samples.splitGraph false) Samples.splitGraph
                  Examples.opening "Person" eq_refl)).
Defined.

Lemma set_keys_order {V : Type} (k : string) (v : V) (o : JS.Object V) :
  map fst (JS.set k v o)
  = if existsb (String.eqb k) (map fst o) then map fst o else map fst o ++ [k].
Proof.
  induction o as [| [k0 v0] o IH]; simpl; [reflexivity |].
  destruct (String.eqb k k0) eqn:E; simpl.
  - apply String.eqb_eq in E. now subst k0.
  - rewrite IH. now destruct (existsb (String.eqb k) (map fst o)).
Qed.

Lemma fold_set_keys_order {V : Type} (es : list (string * V)) :
  forall (acc : JS.Object V) (seen : list string),
    (forall k, existsb (String.eqb k) seen = existsb (String.eqb k) (map fst acc)) ->
    map fst (fold_left (fun o e => JS.set (fst e) (snd e) o) es acc)
    = map fst acc ++ first_appearances seen (map fst es).
Proof.
  induction es as [| e es IH]; intros acc seen Hseen; simpl.
  - now rewrite app_nil_r.
  - rewrite (Hseen (fst e)).
    destruct (existsb (String.eqb (fst e)) (map fst acc)) eqn:E.
    + rewrite (IH (JS.set (fst e) (snd e) acc) seen).
      * now rewrite set_keys_order, E.
      * intros k. now rewrite set_keys_order, E.
    + rewrite (IH (JS.set (fst e) (snd e) acc) (fst e :: seen)).
      * rewrite set_keys_order, E. now rewrite <- app_assoc.
      * intros k. rewrite set_keys_order, E, existsb_app. simpl.
        rewrite Hseen, orb_false_r. apply orb_comm.
Qed.

Lemma fromEntries_keys_order (key : Output -> string) (rows : list Row) :
  (forall el, In el rows -> JS.array_index (key (output el)) = None) ->
  JS.keys (JS.fromEntries
             (map (fun el => (key (output el), properties (output el))) rows))
  = first_appearances [] (map (fun el => key (output el)) rows).
Proof.
  intros Hnamed. unfold JS.keys. rewrite JSFacts.entries_named.
  - unfold JS.fromEntries. rewrite (fold_set_keys_order _ JS.empty []).
    + simpl. now rewrite map_map.
    + reflexivity.
  - intros e He. apply JSFacts.fromEntries_In in He. apply in_map_iff in He.
    destruct He as (el & <- & Hel). simpl. now apply Hnamed.
Qed.

(** X19: when no label is written like an array index, the labels of
    [nodeProps] stand, and are rendered, in the order in which the records
    of the query first mention them; a label that comes again later keeps
    its place.  The same holds for the relationship types of [relProps]. *)
Theorem refreshSchema_keeps_order_of_first_appearance
    (this : FalkorDBGraph) (g : Graph) (t : Trace) :
  graph this = Some g ->
  ((forall el, In el (contributed (nodePropertiesAnswer g t)) ->
               JS.array_index (label (output el)) = None) ->
   JS.keys (nodeProps (getStructuredSchema (this_of (refreshSchema this t))))
   = first_appearances []
       (map (fun el => label (output el)) (contributed (nodePropertiesAnswer g t))))
  /\ ((forall el, In el (contributed (relPropertiesAnswer g t)) ->
                  JS.array_index (type (output el)) = None) ->
      JS.keys (relProps (getStructuredSchema (this_of (refreshSchema this t))))
      = first_appearances []
          (map (fun el => type (output el)) (contributed (relPropertiesAnswer g t)))).
Proof.
  intros Hg. rewrite (refreshSchema_selected this g t Hg).
  unfold this_of, getStructuredSchema, discovered, nodePropsOf, relPropsOf. simpl.
  split; apply fromEntries_keys_order.
Qed.

Lemma refreshSchema_keeps_order_of_first_appearance_witness :
  JS.keys (nodeProps (getStructuredSchema
                        (this_of (refreshSchema (Examples.session Samples.splitGraph false)
                                                Examples.opening))))
  = ["Person"; "Movie"].
Proof.
  refine (proj1 (refreshSchema_keeps_order_of_first_appearance
                   (Examples.session Samples.splitGraph false) Samples.splitGraph
                   Examples.opening eq_refl) _).
  intros el [<- | [<- | [<- | []]]]; reflexivity.
Defined.

(** ** More on close *)

Lemma close_calls_app (d : nat) (t1 t2 : Trace) :
  close_calls d (t1 ++ t2) = close_calls d t1 + close_calls d t2.
Proof.
  unfold close_calls. now rewrite filter_app, length_app.
Qed.

Lemma close_owned (this : FalkorDBGraph) (d : FalkorDB) (t : Trace) :
  driver this = Some d ->
  isExternalDriver this = false ->
  close this t
  = (Returned tt, this,
     (t ++ [driver_close_call (driver_id d)])
     ++ match driver_close d t with
        | Returned _ => []
        | Threw e =>
            [console_warn
               ("Warning: Error closing FalkorDB connection: " ++ JS.errorMessage e)]
        end).
Proof.
  intros Hd Hext. unfold close, bind, get_this, try_catch, call, ret.
  rewrite Hd, Hext. simpl.
  destruct (driver_close d t) as [[] | e]; simpl; [now rewrite app_nil_r | reflexivity].
Qed.

(** X20: [close] keeps no record of having closed.  On an object with a
    driver of its own, a second [close] calls the close operation of the
    driver a second time and returns normally again, and the object still
    says it is connected. *)
Theorem close_twice_closes_twice (this : FalkorDBGraph) (d : FalkorDB) (t : Trace) :
  driver this = Some d ->
  isExternalDriver this = false ->
  outcome_of (close (this_of (close this t)) (trace_of (close this t))) = Returned tt
  /\ close_calls (driver_id d)
       (trace_of (close (this_of (close this t)) (trace_of (close this t))))
     = close_calls (driver_id d) t + 2
  /\ isConnected (this_of (close (this_of (close this t)) (trace_of (close this t))))
     = true.
Proof.
  intros Hd Hext. rewrite (close_owned this d t Hd Hext).
  unfold outcome_of, this_of, trace_of, isConnected. cbn [fst snd].
  rewrite (close_owned this d _ Hd Hext). cbn [fst snd]. rewrite Hd.
  split; [reflexivity |]. split; [| reflexivity].
  rewrite !close_calls_app.
  assert (Hone : close_calls (driver_id d) [driver_close_call (driver_id d)] = 1).
  { unfold close_calls. simpl. now rewrite Nat.eqb_refl. }
  assert (Hzero : forall o : Outcome unit,
             close_calls (driver_id d)
               match o with
               | Returned _ => []
               | Threw e =>
                   [console_warn
                      ("Warning: Error closing FalkorDB connection: "
                       ++ JS.errorMessage e)]
               end = 0).
  { now intros [[] | e]. }
  rewrite Hone, !Hzero. rewrite !Nat.add_0_r. now rewrite <- Nat.add_assoc.
Qed.

Lemma close_twice_closes_twice_witness :
  close_calls 8
    (trace_of (close (this_of (close Examples.owned []))
                     (trace_of (close Examples.owned []))))
  = 2.
Proof.
  exact (proj1 (proj2 (close_twice_closes_twice Examples.owned Examples.ownDriver []
                         eq_refl eq_refl))).
Defined.

(** ** getSchema before and after a refresh *)

Lemma formatSchema_not_empty (this : FalkorDBGraph) : formatSchema this <> "".
Proof.
  unfold formatSchema. destruct (structuredSchema this) as [n r rel].
  cbn [JS.join]. simpl. discriminate.
Qed.

Section Rendered.

Variable new_URL : string -> option JS.URL.
Variable parseInt : string -> Z -> Z.
Variable FalkorDB_connect : Trace -> DriverOptions -> Outcome FalkorDB.

(** Until a refresh returns, the cached rendering is the empty string the
    field starts with: [schema] is assigned in the last statement of
    [refreshSchema] and nowhere else. *)
Lemma Unrefreshed_schema (config : FalkorDBGraphConfig) (this : FalkorDBGraph) :
  Unrefreshed new_URL parseInt FalkorDB_connect config this -> schema this = "".
Proof.
  induction 1 as [| t this t' Hinit | this c t _ IH Hc | this t _ IH Hthrew].
  - now destruct (constructor_fields new_URL parseInt config) as (_ & _ & Hs & _).
  - destruct (constructor_fields new_URL parseInt config) as (_ & _ & Hs & _).
    rewrite initialize_unfolded in Hinit.
    assert (Hw : forall d t1,
               opened_with config d (constructor new_URL parseInt config) t1
               = (Returned this, t') ->
               schema this = "").
    { intros d t1 H. apply opened_with_returns in H.
      destruct H as [-> | (g & -> & _)]; exact Hs. }
    destruct (config_driver config) as [given |]; [now apply (Hw given t) |].
    destruct (FalkorDB_connect t _) as [d | e]; [| discriminate].
    now apply (Hw d (t ++ [FalkorDB_connect_call
                             (driverOptions_of config
                                (constructor new_URL parseInt config))])).
  - destruct c; simpl.
    + destruct (selectGraph_this graphName this t) as [-> | [g ->]]; exact IH.
    + now rewrite query_this.
    + now rewrite verifyConnectivity_this.
    + now destruct Hc.
    + now rewrite close_this.
    + now rewrite executeQueries_this.
    + now rewrite clearGraph_this.
    + exact IH.
  - destruct (graph this) as [g |] eqn:Hg.
    + rewrite (refreshSchema_selected this g t Hg) in Hthrew. destruct Hthrew.
    + now rewrite (refreshSchema_unselected this t Hg).
Qed.

(** C8, as far as the code goes: the formatter reads the cached structured
    schema and nothing else, so equal structured schemas give the same
    string.  On an object on which a refresh has returned, and on which
    since then only other methods were called, [getSchema] returns what the
    formatter gives on the cached structured schema, so there it depends on
    the structured schema alone.  On an object on which no refresh has
    returned yet, [getSchema] returns the empty string, which the formatter
    gives on no structured schema. *)
Theorem formatSchema_reads_structuredSchema_only :
  (forall a b : FalkorDBGraph,
      getStructuredSchema a = getStructuredSchema b ->
      formatSchema a = formatSchema b)
  /\ (forall this : FalkorDBGraph,
        Refreshed this -> getSchema this = formatSchema this)
  /\ (forall a b : FalkorDBGraph,
        Refreshed a -> Refreshed b ->
        getStructuredSchema a = getStructuredSchema b ->
        getSchema a = getSchema b)
  /\ (forall (config : FalkorDBGraphConfig) (this : FalkorDBGraph),
        Unrefreshed new_URL parseInt FalkorDB_connect config this ->
        getSchema this = ""
        /\ forall other : FalkorDBGraph, getSchema this <> formatSchema other).
Proof.
  assert (Hpure : forall a b : FalkorDBGraph,
             getStructuredSchema a = getStructuredSchema b ->
             formatSchema a = formatSchema b).
  { intros a b Hab. unfold formatSchema, getStructuredSchema in *. now rewrite Hab. }
  split; [exact Hpure |].
  split; [intros this Hr; now apply Refreshed_rendering |].
  split.
  - intros a b Ha Hb Hab. unfold getSchema.
    rewrite (Refreshed_rendering a Ha), (Refreshed_rendering b Hb).
    now apply Hpure.
  - intros config this Hu. unfold getSchema.
    rewrite (Unrefreshed_schema config this Hu).
    split; [reflexivity |].
    intros other Heq. now apply (formatSchema_not_empty other).
Qed.

End Rendered.

Lemma formatSchema_reads_structuredSchema_only_witness :
  getSchema
    (this_of (refreshSchema (Examples.session Examples.socialGraph false) Examples.opening))
  = getSchema
      (this_of (refreshSchema (Examples.session Examples.socialGraph true) Examples.opening))
  /\ getSchema (Examples.session Examples.emptyGraph false) = "".
Proof.
  split.
  - apply (proj1 (proj2 (proj2 (formatSchema_reads_structuredSchema_only
                                  Examples.new_URL Examples.parseInt
                                  Examples.FalkorDB_connect)))).
    + exact (refreshed_now (Examples.session Examples.socialGraph false)
               Examples.opening _ _ eq_refl).
    + exact (refreshed_now (Examples.session Examples.socialGraph true)
               Examples.opening _ _ eq_refl).
    + reflexivity.
  - exact (proj1 (proj2 (proj2 (proj2 (formatSchema_reads_structuredSchema_only
                                         Examples.new_URL Examples.parseInt
                                         Examples.FalkorDB_connect)))
                   (Examples.configFor Examples.emptyGraph false)
                   (Examples.session Examples.emptyGraph false)
                   (unrefreshed_initialize Examples.new_URL Examples.parseInt
                      Examples.FalkorDB_connect
                      (Examples.configFor Examples.emptyGraph false)
                      [] (Examples.session Examples.emptyGraph false) _ eq_refl))).
Defined.
